(** * Connection descriptors of the Snowflake data source plugin

    A shallow embedding of [pkg/snowflake.go]: the configuration decoder
    [getConfig], the query-tag encoder [queryTagFromContext] and the
    connection-string assembler [getConnectionString], together with the
    parts of Go's [net/url], [unicode/utf8] and [encoding/json] packages
    these functions call.  Go strings are byte sequences and are modelled
    by [string], whose characters are the 256 byte values. *)

From stdpp Require Import gmap strings sorting.
From Stdlib Require Import ZArith NArith List Ascii String Bool Lia DecimalString.
From Stdlib Require Import DecimalFacts DecimalPos DecimalZ.
Import ListNotations.
Open Scope string_scope.

(** ** Bytes *)

Definition byte_val (c : ascii) : N := N_of_ascii c.

Definition byte_of (n : N) : ascii := ascii_of_N (n mod 256).

(** [lo <= c && c <= hi] on bytes. *)
Definition between (lo hi c : ascii) : bool :=
  ((byte_val lo <=? byte_val c) && (byte_val c <=? byte_val hi))%N.

Definition byte_in (c : ascii) (cs : list ascii) : bool :=
  existsb (Ascii.eqb c) cs.

Definition upperhex : string := "0123456789ABCDEF".
Definition lowerhex : string := "0123456789abcdef".

(** [digits[n]] for an index below sixteen. *)
Definition hex_at (digits : string) (n : N) : ascii :=
  match String.get (N.to_nat n) digits with
  | Some c => c
  | None => "0"%char
  end.

Definition str1 (c : ascii) : string := String c "".

(** The quotation mark, byte 0x22, and a string between two of them. *)
Definition dquote : ascii := "034"%char.

Definition quoted (s : string) : string := String dquote (s ++ str1 dquote).

(** [len(s) != 0] and [s != ""] *)
Definition nonempty (s : string) : bool :=
  match s with "" => false | String _ _ => true end.

(** ** unicode/utf8 *)

Module utf8.

Definition RuneError : N := 0xFFFD.
Definition RuneSelf : N := 0x80.
Definition MaxRune : N := 0x10FFFF.

(** The lead-byte table [first] together with [acceptRanges]: for a lead
    byte of a multi-byte sequence, the length of the sequence and the
    bounds the second byte has to meet; [None] for a byte that cannot
    start one. *)
Definition lead (b : N) : option (nat * N * N) :=
  if (b <? 0xC2)%N then None
  else if (b <=? 0xDF)%N then Some (2%nat, 0x80, 0xBF)%N
  else if (b =? 0xE0)%N then Some (3%nat, 0xA0, 0xBF)%N
  else if (b =? 0xED)%N then Some (3%nat, 0x80, 0x9F)%N
  else if (b <=? 0xEF)%N then Some (3%nat, 0x80, 0xBF)%N
  else if (b =? 0xF0)%N then Some (4%nat, 0x90, 0xBF)%N
  else if (b <=? 0xF3)%N then Some (4%nat, 0x80, 0xBF)%N
  else if (b =? 0xF4)%N then Some (4%nat, 0x80, 0x8F)%N
  else None.

Definition cont (b : N) : bool := ((0x80 <=? b) && (b <=? 0xBF))%N.

(** [DecodeRuneInString]: the first rune of [s] and its width in bytes;
    [(RuneError, 0)] on the empty string and [(RuneError, 1)] on an
    encoding that is not valid. *)
Definition DecodeRuneInString (s : string) : N * nat :=
  match s with
  | "" => (RuneError, 0%nat)
  | String c0 r0 =>
      let s0 := byte_val c0 in
      if (s0 <? RuneSelf)%N then (s0, 1%nat)
      else
        match lead s0 with
        | None => (RuneError, 1%nat)
        | Some (sz, lo, hi) =>
            match r0 with
            | "" => (RuneError, 1%nat)
            | String c1 r1 =>
                let s1 := byte_val c1 in
                if ((s1 <? lo) || (hi <? s1))%N then (RuneError, 1%nat)
                else if (sz <=? 2)%nat then
                  (N.lor (N.shiftl (N.land s0 0x1F) 6) (N.land s1 0x3F), 2%nat)
                else
                  match r1 with
                  | "" => (RuneError, 1%nat)
                  | String c2 r2 =>
                      let s2 := byte_val c2 in
                      if negb (cont s2) then (RuneError, 1%nat)
                      else if (sz <=? 3)%nat then
                        (N.lor (N.shiftl (N.land s0 0x0F) 12)
                           (N.lor (N.shiftl (N.land s1 0x3F) 6) (N.land s2 0x3F)),
                         3%nat)
                      else
                        match r2 with
                        | "" => (RuneError, 1%nat)
                        | String c3 _ =>
                            let s3 := byte_val c3 in
                            if negb (cont s3) then (RuneError, 1%nat)
                            else
                              (N.lor (N.shiftl (N.land s0 0x07) 18)
                                 (N.lor (N.shiftl (N.land s1 0x3F) 12)
                                    (N.lor (N.shiftl (N.land s2 0x3F) 6)
                                       (N.land s3 0x3F))),
                               4%nat)
                        end
                  end
            end
        end
  end.

Definition enc3 (r : N) : string :=
  String (byte_of (N.lor 0xE0 (N.shiftr r 12)))
    (String (byte_of (N.lor 0x80 (N.land (N.shiftr r 6) 0x3F)))
       (String (byte_of (N.lor 0x80 (N.land r 0x3F))) "")).

(** [AppendRune] on an empty buffer: the UTF-8 encoding of [r], that of
    [RuneError] for a surrogate half or a value above [MaxRune]. *)
Definition EncodeRune (r : N) : string :=
  if (r <=? 0x7F)%N then str1 (byte_of r)
  else if (r <=? 0x7FF)%N then
    String (byte_of (N.lor 0xC0 (N.shiftr r 6)))
      (String (byte_of (N.lor 0x80 (N.land r 0x3F))) "")
  else if ((MaxRune <? r) || ((0xD800 <=? r) && (r <=? 0xDFFF)))%N then
    enc3 RuneError
  else if (r <=? 0xFFFF)%N then enc3 r
  else
    String (byte_of (N.lor 0xF0 (N.shiftr r 18)))
      (String (byte_of (N.lor 0x80 (N.land (N.shiftr r 12) 0x3F)))
         (String (byte_of (N.lor 0x80 (N.land (N.shiftr r 6) 0x3F)))
            (String (byte_of (N.lor 0x80 (N.land r 0x3F))) ""))).

End utf8.

(** Drop the first [n] bytes. *)
Fixpoint skipn_string (n : nat) (s : string) : string :=
  match n, s with
  | O, _ => s
  | S n', String _ r => skipn_string n' r
  | S _, "" => ""
  end.

(** ** net/url *)

Module url.

(** The two escaping modes the plugin reaches: [url.User] and
    [url.UserPassword] render with [encodeUserPassword], [Values.Encode]
    with [encodeQueryComponent]. *)
Inductive encoding := encodeUserPassword | encodeQueryComponent.

Definition shouldEscape (c : ascii) (mode : encoding) : bool :=
  if between "a" "z" c || between "A" "Z" c || between "0" "9" c then false
  else if byte_in c ["-"; "_"; "."; "~"]%char then false
  else if byte_in c ["$"; "&"; "+"; ","; "/"; ":"; ";"; "="; "?"; "@"]%char then
    match mode with
    | encodeUserPassword => byte_in c ["@"; "/"; "?"; ":"]%char
    | encodeQueryComponent => true
    end
  else true.

Definition percent (c : ascii) : string :=
  String "%" (String (hex_at upperhex (N.shiftr (byte_val c) 4))
                (String (hex_at upperhex (N.land (byte_val c) 15)) "")).

Definition escape_byte (mode : encoding) (c : ascii) : string :=
  match mode with
  | encodeQueryComponent =>
      if Ascii.eqb c " " then "+"
      else if shouldEscape c mode then percent c else str1 c
  | encodeUserPassword =>
      if shouldEscape c mode then percent c else str1 c
  end.

Fixpoint escape (s : string) (mode : encoding) : string :=
  match s with
  | "" => ""
  | String c r => escape_byte mode c ++ escape r mode
  end.

Definition QueryEscape (s : string) : string := escape s encodeQueryComponent.

Record Userinfo := {
  username : string;
  password : string;
  passwordSet : bool
}.

Definition User (username : string) : Userinfo :=
  {| username := username; password := ""; passwordSet := false |}.

Definition UserPassword (username password : string) : Userinfo :=
  {| username := username; password := password; passwordSet := true |}.

Definition Userinfo_String (u : Userinfo) : string :=
  let s := escape (username u) encodeUserPassword in
  if passwordSet u then s ++ ":" ++ escape (password u) encodeUserPassword
  else s.

(** [type Values map[string][]string] *)
Abbreviation Values := (gmap string (list string)).

Definition Add (key value : string) (v : Values) : Values :=
  <[ key := (default [] (v !! key) ++ [value])%list ]> v.

Definition key_le (a b : string) : Prop := Is_true (String.leb a b).

(** The keys of the map, as [sort.Strings] leaves them. *)
Definition sortedKeys (v : Values) : list string :=
  merge_sort key_le (map fst (map_to_list v)).

Definition encode_key (k : string) (vs : list string) : list string :=
  map (fun x => QueryEscape k ++ "=" ++ QueryEscape x) vs.

(** The [key=value] pieces in the order [Encode] writes them. *)
Definition pairs (v : Values) : list string :=
  flat_map (fun k => encode_key k (default [] (v !! k))) (sortedKeys v).

Fixpoint join_amp (l : list string) : string :=
  match l with
  | [] => ""
  | [x] => x
  | x :: r => x ++ "&" ++ join_amp r
  end.

Definition Encode (v : Values) : string := join_amp (pairs v).

End url.

(** ** encoding/json: Marshal *)

(** Go's [error] as the text of [err.Error()]; [None] is [nil]. *)
Definition error := option string.

Module json.

(** The values [Marshal] is given, by reflection kind.  [Unsupported] stands
    for a value of a channel, function or complex type, [NonFinite] for a
    floating-point NaN or infinity with its printed form; these are the
    values on which [Marshal] returns an error.  A struct lists its exported
    fields in declaration order, each with the name of its [json] tag and
    whether the tag says [omitempty]. *)
Inductive value :=
| String_ (s : string)
| Int64 (z : Z)
| Bool (b : bool)
| Unsupported (type_name : string)
| NonFinite (printed : string)
| Struct (fs : fields)
with fields :=
| FNil
| FCons (name : string) (omitEmpty : bool) (v : value) (rest : fields).

Definition isEmptyValue (v : value) : bool :=
  match v with
  | String_ s => negb (nonempty s)
  | Int64 z => (z =? 0)%Z
  | Bool b => negb b
  | _ => false
  end.

(** [htmlSafeSet]: the ASCII bytes written as they are. *)
Definition htmlSafe (c : ascii) : bool :=
  between " " "127" c && negb (byte_in c [dquote; "\"; "<"; ">"; "&"]%char).

Definition escape_ascii (c : ascii) : string :=
  if byte_in c ["\"; dquote]%char then String "\" (str1 c)
  else if Ascii.eqb c "008" then "\b"
  else if Ascii.eqb c "012" then "\f"
  else if Ascii.eqb c "010" then "\n"
  else if Ascii.eqb c "013" then "\r"
  else if Ascii.eqb c "009" then "\t"
  else "\u00" ++ str1 (hex_at lowerhex (N.shiftr (byte_val c) 4))
              ++ str1 (hex_at lowerhex (N.land (byte_val c) 15)).

(** The loop of [appendString] with [escapeHTML] set, as Go 1.22 and later
    have it.  [skip] counts the continuation bytes of the rune the loop has
    just decoded; they are copied when [keep] is set and dropped when the
    rune was written as an escape. *)
Fixpoint string_body (s : string) (skip : nat) (keep : bool) : string :=
  match s with
  | "" => ""
  | String c r =>
      match skip with
      | S k => (if keep then str1 c else "") ++ string_body r k keep
      | O =>
          if (byte_val c <? utf8.RuneSelf)%N then
            (if htmlSafe c then str1 c else escape_ascii c) ++ string_body r 0 true
          else
            let '(rune, size) := utf8.DecodeRuneInString s in
            if (rune =? utf8.RuneError)%N && (size =? 1)%nat then
              "\ufffd" ++ string_body r 0 true
            else if (rune =? 0x2028)%N || (rune =? 0x2029)%N then
              "\u202" ++ str1 (hex_at lowerhex (N.land rune 15))
                      ++ string_body r (size - 1) false
            else str1 c ++ string_body r (size - 1) true
      end
  end.

Definition appendString (s : string) : string :=
  quoted (string_body s 0 true).

Definition FormatInt (z : Z) : string := NilZero.string_of_int (Z.to_int z).

Fixpoint join_comma (l : list string) : string :=
  match l with
  | [] => ""
  | [x] => x
  | x :: r => x ++ "," ++ join_comma r
  end.

(** The encoder behind [Marshal]: the bytes, or the text of the error.
    [encode_fields] gives the [name:value] pieces of the fields that are
    written. *)
Fixpoint encode (v : value) : string + string :=
  match v with
  | String_ s => inl (appendString s)
  | Int64 z => inl (FormatInt z)
  | Bool b => inl (if b then "true" else "false")
  | Unsupported t => inr ("json: unsupported type: " ++ t)
  | NonFinite p => inr ("json: unsupported value: " ++ p)
  | Struct fs =>
      match encode_fields fs with
      | inl parts => inl ("{" ++ join_comma parts ++ "}")
      | inr e => inr e
      end
  end
with encode_fields (fs : fields) : list string + string :=
  match fs with
  | FNil => inl []
  | FCons name omitEmpty x rest =>
      if omitEmpty && isEmptyValue x then encode_fields rest
      else
        match encode x with
        | inr e => inr e
        | inl b =>
            match encode_fields rest with
            | inl parts => inl ((appendString name ++ ":" ++ b) :: parts)
            | inr e => inr e
            end
        end
  end.

(** [json.Marshal]: the bytes and a nil error, or nil bytes and the error. *)
Definition Marshal (v : value) : string * error :=
  match encode v with
  | inl b => (b, None)
  | inr e => ("", Some e)
  end.

End json.

(** ** encoding/json: the scanner *)

Module scanner.

Definition IsPrint (r : N) : bool :=
  (((0x20 <=? r) && (r <=? 0x7E)) || ((0xA1 <=? r) && (r <=? 0xFF) && negb (r =? 0xAD)))%N.

Definition hex2 (n : N) : string :=
  str1 (hex_at lowerhex (N.land (N.shiftr n 4) 15)) ++ str1 (hex_at lowerhex (N.land n 15)).

(** [strconv.Quote(string(c))] without its two quotation marks, for a byte
    [c] read as the rune of that value. *)
Definition Quote_body (c : ascii) : string :=
  let r := byte_val c in
  if byte_in c [dquote; "\"]%char then String "\" (str1 c)
  else if IsPrint r then utf8.EncodeRune r
  else if (r =? 7)%N then "\a"
  else if (r =? 8)%N then "\b"
  else if (r =? 12)%N then "\f"
  else if (r =? 10)%N then "\n"
  else if (r =? 13)%N then "\r"
  else if (r =? 9)%N then "\t"
  else if (r =? 11)%N then "\v"
  else if ((r <? 0x20) || (r =? 0x7F))%N then "\x" ++ hex2 r
  else "\u00" ++ hex2 r.

Definition quoteChar (c : ascii) : string :=
  if Ascii.eqb c "'" then "'\''"
  else if Ascii.eqb c dquote then "'" ++ str1 dquote ++ "'"
  else "'" ++ Quote_body c ++ "'".

Inductive step_state :=
| stateBeginValueOrEmpty | stateBeginValue | stateBeginStringOrEmpty
| stateBeginString | stateEndValue | stateEndTop
| stateInString | stateInStringEsc | stateInStringEscU | stateInStringEscU1
| stateInStringEscU12 | stateInStringEscU123
| stateNeg | state1 | state0 | stateDot | stateDot0 | stateE | stateESign | stateE0
| stateT | stateTr | stateTru | stateF | stateFa | stateFal | stateFals
| stateN | stateNu | stateNul | stateError.

Inductive parse_state := parseObjectKey | parseObjectValue | parseArrayValue.

Inductive opcode :=
| scanContinue | scanBeginLiteral | scanBeginObject | scanObjectKey
| scanObjectValue | scanEndObject | scanBeginArray | scanArrayValue
| scanEndArray | scanSkipSpace | scanEnd | scanError.

(** The scanner's state; [parseState] has the innermost composite first and
    [err] holds the message of the syntax error. *)
Record t := {
  step : step_state;
  endTop : bool;
  parseState : list parse_state;
  err : error
}.

Definition maxNestingDepth : N := 10000.

Definition reset : t :=
  {| step := stateBeginValue; endTop := false; parseState := []; err := None |}.

Definition with_step (s : t) (st : step_state) : t :=
  {| step := st; endTop := endTop s; parseState := parseState s; err := err s |}.

Definition with_parseState (s : t) (ps : list parse_state) : t :=
  {| step := step s; endTop := endTop s; parseState := ps; err := err s |}.

Definition fail (s : t) (c : ascii) (context : string) : t * opcode :=
  ({| step := stateError; endTop := endTop s; parseState := parseState s;
      err := Some ("invalid character " ++ quoteChar c ++ " " ++ context) |},
   scanError).

Definition isSpace (c : ascii) : bool := byte_in c [" "; "009"; "013"; "010"]%char.

Definition isDigit (c : ascii) : bool := between "0" "9" c.

Definition isHex (c : ascii) : bool :=
  between "0" "9" c || between "a" "f" c || between "A" "F" c.

Definition pushParseState (s : t) (c : ascii) (newParseState : parse_state)
    (successState : opcode) : t * opcode :=
  let s := with_parseState s (newParseState :: parseState s) in
  if (N.of_nat (List.length (parseState s)) <=? maxNestingDepth)%N then (s, successState)
  else fail s c "exceeded max depth".

Definition popParseState (s : t) : t :=
  let rest := tl (parseState s) in
  match rest with
  | [] => {| step := stateEndTop; endTop := true; parseState := rest; err := err s |}
  | _ => {| step := stateEndValue; endTop := endTop s; parseState := rest; err := err s |}
  end.

Definition stateEndTop_fn (s : t) (c : ascii) : t * opcode :=
  if negb (isSpace c) then (fst (fail s c "after top-level value"), scanEnd)
  else (s, scanEnd).

Definition stateEndValue_fn (s : t) (c : ascii) : t * opcode :=
  match parseState s with
  | [] =>
      stateEndTop_fn
        {| step := stateEndTop; endTop := true; parseState := []; err := err s |} c
  | ps :: rest =>
      if isSpace c then (with_step s stateEndValue, scanSkipSpace)
      else
        match ps with
        | parseObjectKey =>
            if Ascii.eqb c ":" then
              (with_step (with_parseState s (parseObjectValue :: rest)) stateBeginValue,
               scanObjectKey)
            else fail s c "after object key"
        | parseObjectValue =>
            if Ascii.eqb c "," then
              (with_step (with_parseState s (parseObjectKey :: rest)) stateBeginString,
               scanObjectValue)
            else if Ascii.eqb c "}" then (popParseState s, scanEndObject)
            else fail s c "after object key:value pair"
        | parseArrayValue =>
            if Ascii.eqb c "," then (with_step s stateBeginValue, scanArrayValue)
            else if Ascii.eqb c "]" then (popParseState s, scanEndArray)
            else fail s c "after array element"
        end
  end.

Definition stateBeginValue_fn (s : t) (c : ascii) : t * opcode :=
  if isSpace c then (s, scanSkipSpace)
  else if Ascii.eqb c "{" then
    pushParseState (with_step s stateBeginStringOrEmpty) c parseObjectKey scanBeginObject
  else if Ascii.eqb c "[" then
    pushParseState (with_step s stateBeginValueOrEmpty) c parseArrayValue scanBeginArray
  else if Ascii.eqb c dquote then (with_step s stateInString, scanBeginLiteral)
  else if Ascii.eqb c "-" then (with_step s stateNeg, scanBeginLiteral)
  else if Ascii.eqb c "0" then (with_step s state0, scanBeginLiteral)
  else if Ascii.eqb c "t" then (with_step s stateT, scanBeginLiteral)
  else if Ascii.eqb c "f" then (with_step s stateF, scanBeginLiteral)
  else if Ascii.eqb c "n" then (with_step s stateN, scanBeginLiteral)
  else if between "1" "9" c then (with_step s state1, scanBeginLiteral)
  else fail s c "looking for beginning of value".

Definition stateBeginString_fn (s : t) (c : ascii) : t * opcode :=
  if isSpace c then (s, scanSkipSpace)
  else if Ascii.eqb c dquote then (with_step s stateInString, scanBeginLiteral)
  else fail s c "looking for beginning of object key string".

Definition state0_fn (s : t) (c : ascii) : t * opcode :=
  if Ascii.eqb c "." then (with_step s stateDot, scanContinue)
  else if byte_in c ["e"; "E"]%char then (with_step s stateE, scanContinue)
  else stateEndValue_fn s c.

Definition stateESign_fn (s : t) (c : ascii) : t * opcode :=
  if isDigit c then (with_step s stateE0, scanContinue)
  else fail s c "in exponent of numeric literal".

(** One byte of a [true], [false] or [null] literal. *)
Definition literal_step (s : t) (c expected : ascii) (next : step_state)
    (context : string) : t * opcode :=
  if Ascii.eqb c expected then (with_step s next, scanContinue) else fail s c context.

Definition hex_step (s : t) (c : ascii) (next : step_state) : t * opcode :=
  if isHex c then (with_step s next, scanContinue)
  else fail s c "in \u hexadecimal character escape".

(** [s.step(s, c)] *)
Definition step_fn (s : t) (c : ascii) : t * opcode :=
  match step s with
  | stateBeginValueOrEmpty =>
      if isSpace c then (s, scanSkipSpace)
      else if Ascii.eqb c "]" then stateEndValue_fn s c
      else stateBeginValue_fn s c
  | stateBeginValue => stateBeginValue_fn s c
  | stateBeginStringOrEmpty =>
      if isSpace c then (s, scanSkipSpace)
      else if Ascii.eqb c "}" then
        stateEndValue_fn (with_parseState s (parseObjectValue :: tl (parseState s))) c
      else stateBeginString_fn s c
  | stateBeginString => stateBeginString_fn s c
  | stateEndValue => stateEndValue_fn s c
  | stateEndTop => stateEndTop_fn s c
  | stateInString =>
      if Ascii.eqb c dquote then (with_step s stateEndValue, scanContinue)
      else if Ascii.eqb c "\" then (with_step s stateInStringEsc, scanContinue)
      else if (byte_val c <? 0x20)%N then fail s c "in string literal"
      else (s, scanContinue)
  | stateInStringEsc =>
      if byte_in c ["b"; "f"; "n"; "r"; "t"; "\"; "/"; dquote]%char then
        (with_step s stateInString, scanContinue)
      else if Ascii.eqb c "u" then (with_step s stateInStringEscU, scanContinue)
      else fail s c "in string escape code"
  | stateInStringEscU => hex_step s c stateInStringEscU1
  | stateInStringEscU1 => hex_step s c stateInStringEscU12
  | stateInStringEscU12 => hex_step s c stateInStringEscU123
  | stateInStringEscU123 => hex_step s c stateInString
  | stateNeg =>
      if Ascii.eqb c "0" then (with_step s state0, scanContinue)
      else if between "1" "9" c then (with_step s state1, scanContinue)
      else fail s c "in numeric literal"
  | state1 =>
      if isDigit c then (with_step s state1, scanContinue) else state0_fn s c
  | state0 => state0_fn s c
  | stateDot =>
      if isDigit c then (with_step s stateDot0, scanContinue)
      else fail s c "after decimal point in numeric literal"
  | stateDot0 =>
      if isDigit c then (s, scanContinue)
      else if byte_in c ["e"; "E"]%char then (with_step s stateE, scanContinue)
      else stateEndValue_fn s c
  | stateE =>
      if byte_in c ["+"; "-"]%char then (with_step s stateESign, scanContinue)
      else stateESign_fn s c
  | stateESign => stateESign_fn s c
  | stateE0 =>
      if isDigit c then (s, scanContinue) else stateEndValue_fn s c
  | stateT => literal_step s c "r" stateTr "in literal true (expecting 'r')"
  | stateTr => literal_step s c "u" stateTru "in literal true (expecting 'u')"
  | stateTru => literal_step s c "e" stateEndValue "in literal true (expecting 'e')"
  | stateF => literal_step s c "a" stateFa "in literal false (expecting 'a')"
  | stateFa => literal_step s c "l" stateFal "in literal false (expecting 'l')"
  | stateFal => literal_step s c "s" stateFals "in literal false (expecting 's')"
  | stateFals => literal_step s c "e" stateEndValue "in literal false (expecting 'e')"
  | stateN => literal_step s c "u" stateNu "in literal null (expecting 'u')"
  | stateNu => literal_step s c "l" stateNul "in literal null (expecting 'l')"
  | stateNul => literal_step s c "l" stateEndValue "in literal null (expecting 'l')"
  | stateError => (s, scanError)
  end.

(** [s.eof()]: the error, if the input may not end here. *)
Definition eof (s : t) : error :=
  match err s with
  | Some e => Some e
  | None =>
      if endTop s then None
      else
        let s := fst (step_fn s " ") in
        if endTop s then None
        else match err s with
             | Some e => Some e
             | None => Some "unexpected end of JSON input"
             end
  end.

(** The loop of [checkValid]: [nil], or the first syntax error. *)
Fixpoint checkValid_from (data : string) (s : t) : error :=
  match data with
  | "" => eof s
  | String c r =>
      let '(s', op) := step_fn s c in
      match op with
      | scanError => err s'
      | _ => checkValid_from r s'
      end
  end.

Definition checkValid (data : string) : error := checkValid_from data reset.

(** Every byte with the opcode the scanner gives it. *)
Fixpoint ops_from (data : string) (s : t) : list (ascii * opcode) :=
  match data with
  | "" => []
  | String c r => let '(s', op) := step_fn s c in (c, op) :: ops_from r s'
  end.

Definition ops (data : string) : list (ascii * opcode) := ops_from data reset.

End scanner.

(** ** encoding/json: Unmarshal into a struct of strings *)

Module decode.

Import scanner.

Definition hexval (c : ascii) : option N :=
  if between "0" "9" c then Some (byte_val c - 48)%N
  else if between "a" "f" c then Some (byte_val c - 97 + 10)%N
  else if between "A" "F" c then Some (byte_val c - 65 + 10)%N
  else None.

(** [getu4]: the code unit of a leading [\uXXXX]; [None] is Go's [-1]. *)
Definition getu4 (s : string) : option N :=
  match s with
  | String "\" (String "u" (String a (String b (String c (String d _))))) =>
      match hexval a, hexval b, hexval c, hexval d with
      | Some a, Some b, Some c, Some d => Some (((a * 16 + b) * 16 + c) * 16 + d)%N
      | _, _, _, _ => None
      end
  | _ => None
  end.

Definition IsSurrogate (r : N) : bool := ((0xD800 <=? r) && (r <? 0xE000))%N.

(** [utf16.DecodeRune r1 r2], the second unit being optional here. *)
Definition utf16_DecodeRune (r1 : N) (r2 : option N) : N :=
  match r2 with
  | Some r2 =>
      if ((0xD800 <=? r1) && (r1 <? 0xDC00) && (0xDC00 <=? r2) && (r2 <? 0xE000))%N
      then (N.lor (N.shiftl (r1 - 0xD800) 10) (r2 - 0xDC00) + 0x10000)%N
      else utf8.RuneError
  | None => utf8.RuneError
  end.

Definition emit (x : string) (rest : option string) : option string :=
  option_map (String.append x) rest.

(** The loop of [unquoteBytes] over the bytes between the quotation marks:
    the decoded string, or [None] where Go reports [ok = false].  [skip]
    counts the bytes the current iteration has already consumed. *)
Fixpoint unquote_body (s : string) (skip : nat) : option string :=
  match s with
  | "" => Some ""
  | String c r =>
      match skip with
      | S k => unquote_body r k
      | O =>
          if Ascii.eqb c "\" then
            match r with
            | "" => None
            | String e _ =>
                if byte_in e [dquote; "\"; "/"; "'"]%char then emit (str1 e) (unquote_body r 1)
                else if Ascii.eqb e "b" then emit (str1 "008") (unquote_body r 1)
                else if Ascii.eqb e "f" then emit (str1 "012") (unquote_body r 1)
                else if Ascii.eqb e "n" then emit (str1 "010") (unquote_body r 1)
                else if Ascii.eqb e "r" then emit (str1 "013") (unquote_body r 1)
                else if Ascii.eqb e "t" then emit (str1 "009") (unquote_body r 1)
                else if Ascii.eqb e "u" then
                  match getu4 s with
                  | None => None
                  | Some rr =>
                      if IsSurrogate rr then
                        let dec := utf16_DecodeRune rr (getu4 (skipn_string 6 s)) in
                        if negb (dec =? utf8.RuneError)%N then
                          emit (utf8.EncodeRune dec) (unquote_body r 11)
                        else emit (utf8.EncodeRune utf8.RuneError) (unquote_body r 5)
                      else emit (utf8.EncodeRune rr) (unquote_body r 5)
                  end
                else None
            end
          else if Ascii.eqb c dquote || (byte_val c <? 0x20)%N then None
          else if (byte_val c <? utf8.RuneSelf)%N then emit (str1 c) (unquote_body r 0)
          else
            let '(rr, size) := utf8.DecodeRuneInString s in
            emit (utf8.EncodeRune rr) (unquote_body r (size - 1))
      end
  end.

Fixpoint drop_last (s : string) : string :=
  match s with
  | "" => ""
  | String c "" => ""
  | String c r => String c (drop_last r)
  end.

Fixpoint last_byte (s : string) : option ascii :=
  match s with
  | "" => None
  | String c "" => Some c
  | String _ r => last_byte r
  end.

(** [unquoteBytes] on a literal with its quotation marks. *)
Definition unquoteBytes (lit : string) : option string :=
  match lit with
  | String c0 (String _ _ as r) =>
      match last_byte r with
      | Some c1 =>
          if Ascii.eqb c0 dquote && Ascii.eqb c1 dquote then unquote_body (drop_last r) 0
          else None
      | None => None
      end
  | _ => None
  end.

Definition isLetter (c : ascii) : bool := between "a" "z" c || between "A" "Z" c.

(** Upper-case form of an ASCII letter: [c & 0xDF]. *)
Definition upper (c : ascii) : ascii := byte_of (N.land (byte_val c) 0xDF).

(** Case-insensitive match of an object key [t] against a field name [s]
    made of ASCII bytes: letters match in either case, the long s (U+017F)
    matches [s] and the Kelvin sign (U+212A) matches [k]; [skip] counts the
    continuation bytes of such a rune. *)
Fixpoint equalFold (s t : string) (skip : nat) : bool :=
  match skip, t with
  | S k, String _ t' => equalFold s t' k
  | S _, "" => false
  | O, _ =>
      match s, t with
      | "", "" => true
      | String sb s', String tb t' =>
          if (byte_val tb <? utf8.RuneSelf)%N then
            (if isLetter sb then Ascii.eqb (upper sb) (upper tb) else Ascii.eqb sb tb)
            && equalFold s' t' 0
          else
            let '(tr, size) := utf8.DecodeRuneInString t in
            ((byte_in sb ["s"; "S"]%char && (tr =? 0x17F)%N)
             || (byte_in sb ["k"; "K"]%char && (tr =? 0x212A)%N))
            && equalFold s' t' (size - 1)
      | _, _ => false
      end
  end.

Fixpoint index_where {A} (f : A -> bool) (l : list A) (i : nat) : option nat :=
  match l with
  | [] => None
  | x :: r => if f x then Some i else index_where f r (S i)
  end.

(** The field an object key selects: the one of that exact name, else the
    one matching it without regard to case. *)
Definition findField (fields : list string) (key : string) : option nat :=
  match index_where (String.eqb key) fields 0 with
  | Some i => Some i
  | None => index_where (fun f => equalFold f key 0) fields 0
  end.

(** The target of the decoding: a struct type of package [pkg] named
    [typeName] whose fields all have type [string], with the names of their
    [json] tags. *)
Record structType := {
  pkg : string;
  typeName : string;
  fieldNames : list string
}.

Inductive phase :=
| AtTop
| TopLiteral (lit : string)
| InObject
| InKey (lit : string)
| AfterKey (field : option nat)
| InValueLiteral (field : option nat) (lit : string)
| Skipping (top : bool) (depth : nat)
| Done.

(** The decoder's state: the field values written so far and the first
    error saved by [saveError]. *)
Record state := {
  at_ : phase;
  values : list string;
  savedError : error
}.

Definition goto (d : state) (p : phase) : state :=
  {| at_ := p; values := values d; savedError := savedError d |}.

Definition saveError (d : state) (e : string) : state :=
  {| at_ := at_ d; values := values d;
     savedError := match savedError d with Some e0 => Some e0 | None => Some e end |}.

(** The text of an [UnmarshalTypeError] for a JSON value of kind [kind]. *)
Definition typeError (ty : structType) (field : option nat) (kind : string) : string :=
  match field with
  | None =>
      "json: cannot unmarshal " ++ kind ++ " into Go value of type "
        ++ pkg ty ++ "." ++ typeName ty
  | Some i =>
      "json: cannot unmarshal " ++ kind ++ " into Go struct field "
        ++ typeName ty ++ "." ++ nth i (fieldNames ty) "" ++ " of type string"
  end.

Definition snoc (s : string) (c : ascii) : string := s ++ str1 c.

(** [literalStore] of the literal [lit] into the whole struct
    ([target = None]) or into the field [target = Some i]. *)
Definition literalStore (ty : structType) (d : state) (target : option nat)
    (lit : string) : state :=
  match lit with
  | String c _ =>
      if Ascii.eqb c "n" then d
      else if byte_in c ["t"; "f"]%char then saveError d (typeError ty target "bool")
      else if Ascii.eqb c dquote then
        match target, unquoteBytes lit with
        | Some i, Some v =>
            {| at_ := at_ d; values := <[ i := v ]> (values d);
               savedError := savedError d |}
        | Some _, None => d
        | None, _ => saveError d (typeError ty None "string")
        end
      else saveError d (typeError ty target "number")
  | "" => d
  end.

(** A value literal of an object member ends: store it when the key named
    a field. *)
Definition endValueLiteral (ty : structType) (d : state) (field : option nat)
    (lit : string) : state :=
  match field with
  | Some i => literalStore ty d (Some i) lit
  | None => d
  end.

(** What the decoder does with a byte that does not continue a literal. *)
Definition dispatch (ty : structType) (d : state) (op : opcode) : state :=
  match at_ d, op with
  | AtTop, scanBeginObject => goto d InObject
  | AtTop, scanBeginArray => goto (saveError d (typeError ty None "array")) (Skipping true 1)
  | InObject, scanEndObject => goto d Done
  | AfterKey f, scanBeginObject =>
      let d := match f with
               | Some i => saveError d (typeError ty (Some i) "object")
               | None => d
               end in
      goto d (Skipping false 1)
  | AfterKey f, scanBeginArray =>
      let d := match f with
               | Some i => saveError d (typeError ty (Some i) "array")
               | None => d
               end in
      goto d (Skipping false 1)
  | Skipping top n, (scanBeginObject | scanBeginArray) => goto d (Skipping top (S n))
  | Skipping top n, (scanEndObject | scanEndArray) =>
      match n with
      | S (S m) => goto d (Skipping top (S m))
      | _ => goto d (if top then Done else InObject)
      end
  | _, _ => d
  end.

(** One byte of the input with its opcode. *)
Definition step (ty : structType) (d : state) (c : ascii) (op : opcode) : state :=
  match at_ d, op with
  | AtTop, scanBeginLiteral => goto d (TopLiteral (str1 c))
  | TopLiteral lit, scanContinue => goto d (TopLiteral (snoc lit c))
  | TopLiteral lit, _ => goto (literalStore ty d None lit) Done
  | InObject, scanBeginLiteral => goto d (InKey (str1 c))
  | InKey lit, scanContinue => goto d (InKey (snoc lit c))
  | InKey lit, _ =>
      let field := match unquoteBytes lit with
                   | Some key => findField (fieldNames ty) key
                   | None => None
                   end in
      goto d (AfterKey field)
  | AfterKey f, scanBeginLiteral => goto d (InValueLiteral f (str1 c))
  | InValueLiteral f lit, scanContinue => goto d (InValueLiteral f (snoc lit c))
  | InValueLiteral f lit, _ =>
      dispatch ty (goto (endValueLiteral ty d f lit) InObject) op
  | _, _ => dispatch ty d op
  end.

Fixpoint run (ty : structType) (d : state) (l : list (ascii * opcode)) : state :=
  match l with
  | [] =>
      match at_ d with
      | TopLiteral lit => goto (literalStore ty d None lit) Done
      | _ => d
      end
  | (c, op) :: r => run ty (step ty d c op) r
  end.

(** [json.Unmarshal(data, &v)] for [v] a struct of type [ty] holding the
    field values [v]: the field values afterwards and the error. *)
Definition Unmarshal (ty : structType) (data : string) (v : list string)
    : list string * error :=
  match checkValid data with
  | Some e => (v, Some e)
  | None =>
      let d := run ty {| at_ := AtTop; values := v; savedError := None |} (ops data) in
      (values d, savedError d)
  end.

End decode.

(** ** The plugin SDK's request types *)

Module backend.

Record User := {
  Login : string;
  Name : string;
  Email : string;
  Role : string
}.

(** [==] on [User] values: all fields equal. *)
Definition User_eqb (a b : User) : bool :=
  String.eqb (Login a) (Login b) && String.eqb (Name a) (Name b)
  && String.eqb (Email a) (Email b) && String.eqb (Role a) (Role b).

Record DataSourceInstanceSettings := {
  JSONData : string;
  DecryptedSecureJSONData : gmap string string
}.

(** [User] is a pointer in Go, [None] is [nil]; [OrgID] is an [int64]. *)
Record PluginContext := {
  OrgID : Z;
  User_ : option User;
  DataSourceInstanceSettings_ : DataSourceInstanceSettings
}.

Inductive HealthStatus := HealthStatusUnknown | HealthStatusOk | HealthStatusError.

Record CheckHealthResult := {
  Status : HealthStatus;
  Message : string
}.

Record CheckHealthRequest := {
  PluginContext_ : PluginContext
}.

End backend.

(** ** The plugin *)

Record pluginConfig := {
  Account : string;
  Username : string;
  Role : string;
  Warehouse : string;
  Database : string;
  Schema : string;
  ExtraConfig : string
}.

(** The locals [params] and [userPass] of [getConnectionString] when the
    function reaches its return statement. *)
Definition getConnectionString_locals
    (config : pluginConfig) (password privateKey queryTag : string)
    : url.Values * string :=
  let params : url.Values := ∅ in
  let params := url.Add "role" (Role config) params in
  let params := url.Add "warehouse" (Warehouse config) params in
  let params := url.Add "database" (Database config) params in
  let params := url.Add "schema" (Schema config) params in
  let params :=
    if nonempty queryTag then url.Add "QUERY_TAG" queryTag params else params in
  if nonempty privateKey then
    let params := url.Add "authenticator" "SNOWFLAKE_JWT" params in
    let params := url.Add "privateKey" privateKey params in
    (params, url.Userinfo_String (url.User (Username config)))
  else
    (params, url.Userinfo_String (url.UserPassword (Username config) password)).

(** [fmt.Sprintf("%s@%s?%s&%s", a, b, c, d)] *)
Definition Sprintf_descriptor (a b c d : string) : string :=
  a ++ "@" ++ b ++ "?" ++ c ++ "&" ++ d.

Definition getConnectionString
    (config : pluginConfig) (password privateKey queryTag : string) : string :=
  let '(params, userPass) :=
    getConnectionString_locals config password privateKey queryTag in
  Sprintf_descriptor userPass (Account config) (url.Encode params) (ExtraConfig config).

(** ** The query tag *)

Record queryTagData := {
  Job : string;
  OrgId : Z;
  UserLogin : string;
  UserName : string;
  UserEmail : string;
  UserRole : string;
  IsBackend : bool;
  IsAnonymous : bool
}.

(** The struct as [json.Marshal] sees it through its field tags. *)
Definition queryTagData_value (q : queryTagData) : json.value :=
  json.Struct
    (json.FCons "job" false (json.String_ (Job q))
    (json.FCons "org_id" false (json.Int64 (OrgId q))
    (json.FCons "user_login" true (json.String_ (UserLogin q))
    (json.FCons "user_name" true (json.String_ (UserName q))
    (json.FCons "user_email" true (json.String_ (UserEmail q))
    (json.FCons "user_role" true (json.String_ (UserRole q))
    (json.FCons "is_backend" true (json.Bool (IsBackend q))
    (json.FCons "is_anonymous" true (json.Bool (IsAnonymous q))
     json.FNil)))))))).

(** The value of [qtd] when [queryTagFromContext] reaches [json.Marshal]. *)
Definition queryTagFromContext_qtd (pc : backend.PluginContext) : queryTagData :=
  let qtd :=
    {| Job := "Grafana"; OrgId := backend.OrgID pc;
       UserLogin := ""; UserName := ""; UserEmail := ""; UserRole := "";
       IsBackend := false; IsAnonymous := false |} in
  match backend.User_ pc with
  | Some u =>
      let anonymous :=
        backend.User_eqb
          {| backend.Login := ""; backend.Name := ""; backend.Email := "";
             backend.Role := backend.Role u |} u in
      {| Job := Job qtd; OrgId := OrgId qtd;
         UserLogin := backend.Login u; UserName := backend.Name u;
         UserEmail := backend.Email u; UserRole := backend.Role u;
         IsBackend := IsBackend qtd;
         IsAnonymous := if anonymous then true else IsAnonymous qtd |}
  | None =>
      {| Job := Job qtd; OrgId := OrgId qtd;
         UserLogin := UserLogin qtd; UserName := UserName qtd;
         UserEmail := UserEmail qtd; UserRole := UserRole qtd;
         IsBackend := true; IsAnonymous := IsAnonymous qtd |}
  end.

Definition queryTagFromContext (pc : backend.PluginContext) : string * error :=
  let qtd := queryTagFromContext_qtd pc in
  match json.Marshal (queryTagData_value qtd) with
  | (_, Some err) => ("", Some err)
  | (queryTagBytes, None) => (queryTagBytes, None)
  end.


(** ** The configuration *)

Definition pluginConfig_type : decode.structType :=
  {| decode.pkg := "main"; decode.typeName := "pluginConfig";
     decode.fieldNames :=
       ["account"; "username"; "role"; "warehouse"; "database"; "schema"; "extraConfig"] |}.

Definition pluginConfig_fields (c : pluginConfig) : list string :=
  [Account c; Username c; Role c; Warehouse c; Database c; Schema c; ExtraConfig c].

Definition pluginConfig_of_fields (l : list string) : pluginConfig :=
  {| Account := nth 0 l ""; Username := nth 1 l ""; Role := nth 2 l "";
     Warehouse := nth 3 l ""; Database := nth 4 l ""; Schema := nth 5 l "";
     ExtraConfig := nth 6 l "" |}.

(** The zero value of [var config pluginConfig]. *)
Definition pluginConfig_zero : pluginConfig :=
  {| Account := ""; Username := ""; Role := ""; Warehouse := ""; Database := "";
     Schema := ""; ExtraConfig := "" |}.

(** [json.Unmarshal(data, &config)] *)
Definition Unmarshal_pluginConfig (data : string) (config : pluginConfig)
    : pluginConfig * error :=
  let '(fields, err) :=
    decode.Unmarshal pluginConfig_type data (pluginConfig_fields config) in
  (pluginConfig_of_fields fields, err).

Definition getConfig (settings : backend.DataSourceInstanceSettings)
    : pluginConfig * error :=
  let config := pluginConfig_zero in
  let '(config, err) := Unmarshal_pluginConfig (backend.JSONData settings) config in
  match err with
  | Some e => (config, Some e)
  | None => (config, None)
  end.

(** ** The health check's validator *)

(** What the validator hands back: the descriptor, a structured health
    result, or the error of the query-tag encoder passed on as it is. *)
Inductive validation :=
| Descriptor (connectionString : string)
| Failure (result : backend.CheckHealthResult)
| InternalError (err : string).

Definition healthError (message : string) : validation :=
  Failure {| backend.Status := backend.HealthStatusError; backend.Message := message |}.

Definition with_ExtraConfig (config : pluginConfig) (extraConfig : string) : pluginConfig :=
  {| Account := Account config; Username := Username config; Role := Role config;
     Warehouse := Warehouse config; Database := Database config;
     Schema := Schema config; ExtraConfig := extraConfig |}.

(** [settings.DecryptedSecureJSONData[key]]: the empty string for a key the
    map does not hold. *)
Definition secret (settings : backend.DataSourceInstanceSettings) (key : string) : string :=
  default "" (backend.DecryptedSecureJSONData settings !! key).

(** Modelled from the spec: [createAndValidationConnectionString], whose
    file is not among the sources; only its test table is.  The states and
    their order are those of the validator's state machine: credential
    presence, decoding, account, username, query tag, assembly.  The
    message texts, and the [validateDefaultParameters=true] fragment that
    follows [extraConfig] in every descriptor the table expects, are taken
    from that table. *)
Definition createAndValidationConnectionString (req : backend.CheckHealthRequest)
    : validation :=
  let pc := backend.PluginContext_ req in
  let settings := backend.DataSourceInstanceSettings_ pc in
  let password := secret settings "password" in
  let privateKey := secret settings "privateKey" in
  if negb (nonempty password) && negb (nonempty privateKey) then
    healthError "Password or private key are required."
  else
    match getConfig settings with
    | (_, Some err) => healthError ("Error getting config: " ++ err)
    | (config, None) =>
        if negb (nonempty (Account config)) then healthError "Account not provided"
        else if negb (nonempty (Username config)) then healthError "Username not provided"
        else
          match queryTagFromContext pc with
          | (_, Some err) => InternalError err
          | (queryTag, None) =>
              let config :=
                if nonempty (ExtraConfig config) then
                  with_ExtraConfig config (ExtraConfig config ++ "&validateDefaultParameters=true")
                else with_ExtraConfig config "validateDefaultParameters=true" in
              Descriptor (getConnectionString config password privateKey queryTag)
          end
    end.

(** ** The query handler *)

Record QueryDataRequest {DataQuery : Type} := {
  QueryData_PluginContext : backend.PluginContext;
  Queries : list DataQuery
}.

Arguments QueryDataRequest : clear implicits.

(** [QueryData].  The queries and their responses are types of the plugin
    SDK and [td.query], which runs one query, is not among the sources:
    they are parameters, and a query is known by its [RefID] only.  The
    response is the map [response.Responses].  The call to the logger on a
    decoding error does not change what is returned and is left out. *)
Definition QueryData {DataQuery DataResponse : Type}
    (RefID : DataQuery -> string)
    (query : DataQuery -> pluginConfig -> string -> string -> string -> DataResponse)
    (req : QueryDataRequest DataQuery) : gmap string DataResponse * error :=
  let response : gmap string DataResponse := ∅ in
  let pc := QueryData_PluginContext req in
  let settings := backend.DataSourceInstanceSettings_ pc in
  let password := secret settings "password" in
  let privateKey := secret settings "privateKey" in
  match getConfig settings with
  | (_, Some err) => (response, Some err)
  | (config, None) =>
      match queryTagFromContext pc with
      | (_, Some err) => (response, Some err)
      | (queryTag, None) =>
          (foldl (fun responses q =>
                    <[ RefID q := query q config password privateKey queryTag ]> responses)
                 response (Queries req),
           None)
      end
  end.

(** ** The rows of the test tables *)

Definition test_config : pluginConfig :=
  {| Account := "account"; Username := "username"; Role := "role";
     Warehouse := "warehouse"; Database := "database"; Schema := "schema";
     ExtraConfig := "conf=xxx" |}.

Definition test_config_escape : pluginConfig :=
  {| Account := "acc@ount"; Username := "user@name"; Role := "ro@le";
     Warehouse := "ware@house"; Database := "dat@base"; Schema := "sch@ema";
     ExtraConfig := "conf=xxx" |}.

Definition test_request (jsonData : string) (secure : gmap string string)
    : backend.CheckHealthRequest :=
  {| backend.PluginContext_ :=
       {| backend.OrgID := 0; backend.User_ := None;
          backend.DataSourceInstanceSettings_ :=
            {| backend.JSONData := jsonData;
               backend.DecryptedSecureJSONData := secure |} |} |}.

Definition test_context (user : option backend.User) : backend.PluginContext :=
  {| backend.OrgID := 123; backend.User_ := user;
     backend.DataSourceInstanceSettings_ :=
       {| backend.JSONData := ""; backend.DecryptedSecureJSONData := ∅ |} |}.

(** ** Vocabulary of the properties *)

(** [c] occurs in [s]. *)
Fixpoint occurs (c : ascii) (s : string) : bool :=
  match s with
  | "" => false
  | String x r => Ascii.eqb c x || occurs c r
  end.

(** [strings.HasSuffix] *)
Definition HasSuffix (s suffix : string) : bool :=
  (String.length suffix <=? String.length s)%nat
  && String.eqb (skipn_string (String.length s - String.length suffix) s) suffix.

(** The encoded parameters of the descriptor, key by key in the order they
    are written. *)
Definition encodedParams (config : pluginConfig) (privateKey queryTag : string) : string :=
  (if nonempty queryTag then "QUERY_TAG=" ++ url.QueryEscape queryTag ++ "&" else "")
  ++ (if nonempty privateKey then "authenticator=SNOWFLAKE_JWT&" else "")
  ++ "database=" ++ url.QueryEscape (Database config) ++ "&"
  ++ (if nonempty privateKey then "privateKey=" ++ url.QueryEscape privateKey ++ "&" else "")
  ++ "role=" ++ url.QueryEscape (Role config)
  ++ "&schema=" ++ url.QueryEscape (Schema config)
  ++ "&warehouse=" ++ url.QueryEscape (Warehouse config).

(** Values made of strings, integers and booleans only. *)
Fixpoint plain (v : json.value) : bool :=
  match v with
  | json.String_ _ | json.Int64 _ | json.Bool _ => true
  | json.Unsupported _ | json.NonFinite _ => false
  | json.Struct fs => plain_fields fs
  end
with plain_fields (fs : json.fields) : bool :=
  match fs with
  | json.FNil => true
  | json.FCons _ _ v rest => plain v && plain_fields rest
  end.

Scheme value_fields_ind := Induction for json.value Sort Prop
  with fields_value_ind := Induction for json.fields Sort Prop.

Combined Scheme value_and_fields_ind from value_fields_ind, fields_value_ind.

Definition test_settings (jsonData : string) : backend.DataSourceInstanceSettings :=
  {| backend.JSONData := jsonData; backend.DecryptedSecureJSONData := ∅ |}.

(** The rows of [TestCreateAndValidationConnectionString]. *)
Definition test_row_1 : backend.CheckHealthRequest :=
  test_request "" {[ "password" := "" ]}.

Definition test_row_2 : backend.CheckHealthRequest :=
  test_request "{" {[ "password" := "pass" ]}.

Definition test_row_5 : backend.CheckHealthRequest :=
  test_request
    ("{" ++ quoted "account" ++ ":" ++ quoted "test" ++ ","
         ++ quoted "username" ++ ":" ++ quoted "user" ++ "}")
    {[ "password" := "pass" ]}.

Definition test_row_6 : backend.CheckHealthRequest :=
  test_request
    ("{" ++ quoted "account" ++ ":" ++ quoted "test" ++ ","
         ++ quoted "username" ++ ":" ++ quoted "user" ++ ","
         ++ quoted "extraConfig" ++ ":" ++ quoted "config=conf" ++ "}")
    {[ "password" := "pass" ]}.

(** How often [c] occurs in [s]. *)
Fixpoint count (c : ascii) (s : string) : nat :=
  match s with
  | "" => 0%nat
  | String x r => ((if Ascii.eqb c x then 1 else 0) + count c r)%nat
  end.

(** Every byte of [s] passes [p]. *)
Fixpoint all_bytes (p : ascii -> bool) (s : string) : bool :=
  match s with
  | "" => true
  | String x r => p x && all_bytes p r
  end.

(** The bytes no mode of [shouldEscape] escapes: letters, digits and the
    four marks. *)
Definition unreserved (c : ascii) : bool :=
  between "a" "z" c || between "A" "Z" c || between "0" "9" c
  || byte_in c ["-"; "_"; "."; "~"]%char.

Definition unhex (c : ascii) : N := default 0%N (decode.hexval c).

(** Reading an escaped string back, as [url.unescape] does on what
    [url.escape] writes: [%XY] is the byte of that value and, in a query
    component, [+] is a space.  [skip] counts the hexadecimal digits
    already read. *)
Fixpoint unescape (mode : url.encoding) (s : string) (skip : nat) : string :=
  match s with
  | "" => ""
  | String c r =>
      match skip with
      | S k => unescape mode r k
      | O =>
          if Ascii.eqb c "%" then
            match r with
            | String a (String b _) =>
                String (byte_of (16 * unhex a + unhex b)) (unescape mode r 2)
            | _ => String c (unescape mode r 0)
            end
          else
            match mode with
            | url.encodeQueryComponent =>
                String (if Ascii.eqb c "+" then " "%char else c) (unescape mode r 0)
            | url.encodeUserPassword => String c (unescape mode r 0)
            end
      end
  end.

(** Bytes below [utf8.RuneSelf]. *)
Definition ascii7 (c : ascii) : bool := (byte_val c <? utf8.RuneSelf)%N.

(** Bytes that continue a literal, each with the opcode [scanContinue]. *)
Fixpoint continued (s : string) : list (ascii * scanner.opcode) :=
  match s with
  | "" => []
  | String c r => (c, scanner.scanContinue) :: continued r
  end.

(** What [appendString] writes for one byte below [utf8.RuneSelf]. *)
Definition json_piece (c : ascii) : string :=
  if json.htmlSafe c then str1 c else json.escape_ascii c.

(** The scanner inside a string literal. *)
Definition inString (endTop : bool) (parseState : list scanner.parse_state) (err : error)
    : scanner.t :=
  {| scanner.step := scanner.stateInString; scanner.endTop := endTop;
     scanner.parseState := parseState; scanner.err := err |}.

(** The document [{key:value}] as a JSON encoder writes it for two strings. *)
Definition one_member (key value : string) : string :=
  "{" ++ json.appendString key ++ ":" ++ json.appendString value ++ "}".

(** A member of the query tag that is left out when its value is empty,
    and one that is left out when its flag is not set. *)
Definition tag_member (name value : string) : string :=
  if nonempty value then "," ++ quoted name ++ ":" ++ json.appendString value else "".

Definition tag_flag (name : string) (flag : bool) : string :=
  if flag then "," ++ quoted name ++ ":true" else "".

(** The pieces of [l], each after a comma. *)
Fixpoint commas (l : list string) : string :=
  match l with
  | [] => ""
  | x :: r => "," ++ x ++ commas r
  end.

(** The scanner in the value of a member of the outermost object. *)
Definition inMember (step : scanner.step_state) : scanner.t :=
  {| scanner.step := step; scanner.endTop := false;
     scanner.parseState := [scanner.parseObjectValue]; scanner.err := None |}.

(** The states in which a value of that object may be over: after a number
    ([state0], [state1]) and after any value ([stateEndValue]). *)
Definition valueOver (step : scanner.step_state) : Prop :=
  step = scanner.state0 \/ step = scanner.state1 \/ step = scanner.stateEndValue.

(** A user of the plugin context whose fields hold bytes below 0x80 only;
    no user at all qualifies. *)
Definition ascii_user (user : option backend.User) : bool :=
  match user with
  | None => true
  | Some u =>
      all_bytes ascii7 (backend.Login u) && all_bytes ascii7 (backend.Name u)
      && all_bytes ascii7 (backend.Email u) && all_bytes ascii7 (backend.Role u)
  end.

(** The bytes a form-encoded parameter list is made of: the unreserved
    ones, the escapes' [%] and [+], and the separators [=] and [&]. *)
Definition form_byte (c : ascii) : bool :=
  unreserved c || byte_in c ["%"; "+"; "="; "&"]%char.

(** A request of three queries, two of them with the same [RefID], in the
    context of the fifth row of the validator's table. *)
Definition test_query_request : QueryDataRequest (string * string) :=
  {| QueryData_PluginContext := backend.PluginContext_ test_row_5;
     Queries := [("A", "select 1"); ("B", "select 2"); ("A", "select 3")] |}.

(** * Properties *)

(** ** Strings *)

Lemma append_cons (x : ascii) (a b : string) : String x a ++ b = String x (a ++ b).
Proof. reflexivity. Qed.

Lemma append_nil_l (a : string) : "" ++ a = a.
Proof. reflexivity. Qed.

Lemma append_assoc (a b c : string) : (a ++ b) ++ c = a ++ (b ++ c).
Proof.
  induction a as [|x a IH]; [reflexivity|].
  rewrite !append_cons. now rewrite IH.
Qed.

Lemma append_nil_r (a : string) : a ++ "" = a.
Proof.
  induction a as [|x a IH]; [reflexivity|].
  rewrite append_cons. now rewrite IH.
Qed.

Lemma nonempty_true (s : string) : nonempty s = true <-> s <> "".
Proof. destruct s; simpl; split; congruence. Qed.

Lemma nonempty_false (s : string) : nonempty s = false <-> s = "".
Proof. destruct s; simpl; split; congruence. Qed.

Lemma occurs_append (c : ascii) (a b : string) :
  occurs c (a ++ b) = occurs c a || occurs c b.
Proof.
  induction a as [|x a IH]; [reflexivity|].
  rewrite append_cons. simpl. rewrite IH. now rewrite orb_assoc.
Qed.

Lemma length_append (a b : string) :
  String.length (a ++ b) = (String.length a + String.length b)%nat.
Proof.
  induction a as [|x a IH]; [reflexivity|].
  rewrite append_cons. simpl. now rewrite IH.
Qed.

Lemma skipn_string_append (a b : string) :
  skipn_string (String.length a) (a ++ b) = b.
Proof.
  induction a as [|x a IH]; [now destruct b|].
  rewrite append_cons. exact IH.
Qed.

Lemma HasSuffix_append (p suffix : string) : HasSuffix (p ++ suffix) suffix = true.
Proof.
  unfold HasSuffix. rewrite length_append.
  replace (String.length p + String.length suffix - String.length suffix)%nat
    with (String.length p) by lia.
  rewrite skipn_string_append, String.eqb_refl, andb_true_r.
  apply Nat.leb_le. lia.
Qed.

(** ** The order of the keys *)

Lemma compare_le_trans (a b c : string) :
  String.compare a b <> Gt -> String.compare b c <> Gt -> String.compare a c <> Gt.
Proof.
  revert b c. induction a as [|x a IH]; intros [|y b] [|z c]; simpl; try congruence.
  unfold Ascii.compare.
  destruct (N.compare_spec (N_of_ascii x) (N_of_ascii y)) as [Exy|Lxy|Gxy];
    destruct (N.compare_spec (N_of_ascii y) (N_of_ascii z)) as [Eyz|Lyz|Gyz];
    destruct (N.compare_spec (N_of_ascii x) (N_of_ascii z)) as [Exz|Lxz|Gxz];
    try congruence; try lia.
  apply IH.
Qed.

#[local] Instance key_le_trans : Transitive url.key_le.
Proof.
  intros a b c Hab Hbc. unfold url.key_le, String.leb in *.
  pose proof (compare_le_trans a b c) as H.
  destruct (String.compare a b); destruct (String.compare b c);
    destruct (String.compare a c); simpl in *; try exact I; try contradiction;
    exfalso; apply H; congruence.
Qed.

#[local] Instance key_le_total : Total url.key_le.
Proof.
  intros a b. unfold url.key_le.
  destruct (String.leb_total a b) as [H|H]; rewrite H; [left | right]; exact I.
Qed.



(** ** The parameters of the descriptor *)

Section Locals.

Variables (config : pluginConfig) (password privateKey queryTag : string).

Let params : url.Values :=
  fst (getConnectionString_locals config password privateKey queryTag).

Lemma locals_sortedKeys :
  url.sortedKeys params =
  ((if nonempty queryTag then ["QUERY_TAG"] else [])
   ++ (if nonempty privateKey then ["authenticator"] else [])
   ++ ["database"]
   ++ (if nonempty privateKey then ["privateKey"] else [])
   ++ ["role"; "schema"; "warehouse"])%list.
Proof.
  subst params. destruct queryTag, privateKey; vm_compute; reflexivity.
Qed.

Lemma locals_lookup :
  params !! "role" = Some [Role config]
  /\ params !! "warehouse" = Some [Warehouse config]
  /\ params !! "database" = Some [Database config]
  /\ params !! "schema" = Some [Schema config]
  /\ params !! "QUERY_TAG" = (if nonempty queryTag then Some [queryTag] else None)
  /\ params !! "authenticator" = (if nonempty privateKey then Some ["SNOWFLAKE_JWT"] else None)
  /\ params !! "privateKey" = (if nonempty privateKey then Some [privateKey] else None).
Proof.
  subst params. destruct queryTag, privateKey; vm_compute; repeat split; reflexivity.
Qed.

Lemma locals_Encode : url.Encode params = encodedParams config privateKey queryTag.
Proof.
  unfold url.Encode, url.pairs, encodedParams. rewrite locals_sortedKeys.
  destruct locals_lookup as (Hr & Hw & Hd & Hs & Ht & Ha & Hp).
  destruct (nonempty queryTag), (nonempty privateKey);
    cbn [flat_map app]; rewrite ?Hr, ?Hw, ?Hd, ?Hs, ?Ht, ?Ha, ?Hp;
    cbn [flat_map default url.encode_key map app url.join_amp];
    change (url.QueryEscape "QUERY_TAG") with "QUERY_TAG";
    change (url.QueryEscape "authenticator") with "authenticator";
    change (url.QueryEscape "SNOWFLAKE_JWT") with "SNOWFLAKE_JWT";
    change (url.QueryEscape "database") with "database";
    change (url.QueryEscape "privateKey") with "privateKey";
    change (url.QueryEscape "role") with "role";
    change (url.QueryEscape "schema") with "schema";
    change (url.QueryEscape "warehouse") with "warehouse";
    rewrite ?append_assoc; reflexivity.
Qed.

(** The descriptor, piece by piece. *)
Lemma getConnectionString_shape :
  getConnectionString config password privateKey queryTag =
  snd (getConnectionString_locals config password privateKey queryTag)
  ++ "@" ++ Account config ++ "?" ++ encodedParams config privateKey queryTag
  ++ "&" ++ ExtraConfig config.
Proof.
  unfold getConnectionString. rewrite <- locals_Encode. subst params.
  destruct (getConnectionString_locals config password privateKey queryTag).
  reflexivity.
Qed.

Lemma locals_userPass :
  snd (getConnectionString_locals config password privateKey queryTag) =
  if nonempty privateKey then url.escape (Username config) url.encodeUserPassword
  else url.escape (Username config) url.encodeUserPassword
       ++ ":" ++ url.escape password url.encodeUserPassword.
Proof.
  unfold getConnectionString_locals. destruct (nonempty privateKey); reflexivity.
Qed.

End Locals.

(** ** Escaping *)

Lemma escape_cons (mode : url.encoding) (c : ascii) (s : string) :
  url.escape (String c s) mode = url.escape_byte mode c ++ url.escape s mode.
Proof. reflexivity. Qed.

Lemma escape_append (mode : url.encoding) (a b : string) :
  url.escape (a ++ b) mode = url.escape a mode ++ url.escape b mode.
Proof.
  induction a as [|x a IH]; [reflexivity|].
  rewrite append_cons, !escape_cons, IH. now rewrite append_assoc.
Qed.

Lemma escape_byte_no_at (c : ascii) :
  occurs "@" (url.escape_byte url.encodeUserPassword c) = false.
Proof. destruct c as [[] [] [] [] [] [] [] []]; vm_compute; reflexivity. Qed.

Lemma escape_no_at (s : string) : occurs "@" (url.escape s url.encodeUserPassword) = false.
Proof.
  induction s as [|x s IH]; [reflexivity|].
  now rewrite escape_cons, occurs_append, escape_byte_no_at, IH.
Qed.

(** ** The assembler *)


(** C3: with a private key that is not empty the parameters carry
    [authenticator=SNOWFLAKE_JWT] and [privateKey] with the key, the
    credential prefix is the escaped user name alone, and the descriptor is
    the same whatever the password is. *)
Theorem private_key_selects_jwt
    (config : pluginConfig) (password privateKey queryTag : string) :
  privateKey <> "" ->
  let params := fst (getConnectionString_locals config password privateKey queryTag) in
  params !! "authenticator" = Some ["SNOWFLAKE_JWT"]
  /\ params !! "privateKey" = Some [privateKey]
  /\ (exists a b, url.Encode params = a ++ "authenticator=SNOWFLAKE_JWT" ++ b)
  /\ (exists a b, url.Encode params = a ++ "privateKey=" ++ url.QueryEscape privateKey ++ b)
  /\ getConnectionString config password privateKey queryTag =
     url.escape (Username config) url.encodeUserPassword
     ++ "@" ++ Account config ++ "?" ++ url.Encode params ++ "&" ++ ExtraConfig config
  /\ (forall password',
        getConnectionString config password' privateKey queryTag =
        getConnectionString config password privateKey queryTag).
Proof.
  intros Hne params. apply nonempty_true in Hne.
  destruct (locals_lookup config password privateKey queryTag)
    as (_ & _ & _ & _ & _ & Ha & Hp).
  fold params in Ha, Hp. rewrite Hne in Ha, Hp.
  pose proof (locals_Encode config password privateKey queryTag) as HE.
  fold params in HE. unfold encodedParams in HE. rewrite Hne in HE.
  split; [exact Ha|]. split; [exact Hp|].
  split; [|split; [|split]].
  - exists (if nonempty queryTag then "QUERY_TAG=" ++ url.QueryEscape queryTag ++ "&" else "").
    eexists. rewrite HE.
    change "authenticator=SNOWFLAKE_JWT&" with ("authenticator=SNOWFLAKE_JWT" ++ "&").
    rewrite (append_assoc "authenticator=SNOWFLAKE_JWT"). reflexivity.
  - exists ((if nonempty queryTag then "QUERY_TAG=" ++ url.QueryEscape queryTag ++ "&" else "")
            ++ "authenticator=SNOWFLAKE_JWT&database="
            ++ url.QueryEscape (Database config) ++ "&").
    exists ("&role=" ++ url.QueryEscape (Role config)
            ++ "&schema=" ++ url.QueryEscape (Schema config)
            ++ "&warehouse=" ++ url.QueryEscape (Warehouse config)).
    rewrite HE, !append_assoc. reflexivity.
  - rewrite getConnectionString_shape, locals_userPass, Hne.
    subst params. now rewrite locals_Encode.
  - intros password'. rewrite !getConnectionString_shape, !locals_userPass.
    now rewrite Hne.
Qed.

Lemma private_key_selects_jwt_witness :
  "privateKey" <> ""
  /\ getConnectionString test_config "password" "privateKey" "" =
     "username@account?authenticator=SNOWFLAKE_JWT&database=database&privateKey=privateKey&role=role&schema=schema&warehouse=warehouse&conf=xxx"
  /\ getConnectionString test_config "" "privateKey" "" =
     getConnectionString test_config "password" "privateKey" "".
Proof.
  assert (H : "privateKey" <> "") by discriminate.
  destruct (private_key_selects_jwt test_config "password" "privateKey" "" H)
    as (_ & _ & _ & _ & Heq & Hpw).
  split; [exact H|]. split; [|exact (Hpw "")].
  rewrite Heq. vm_compute. reflexivity.
Defined.

(** C4: without a private key the credential prefix is the user name, a
    colon and the password, both with userinfo escaping: [@] is written
    [%40] and [/] is written [%2F], while [$] and [&] stay as they are. *)
Theorem password_mode_userinfo_escaped
    (config : pluginConfig) (password queryTag : string) :
  let esc s := url.escape s url.encodeUserPassword in
  getConnectionString config password "" queryTag =
    esc (Username config) ++ ":" ++ esc password
    ++ "@" ++ Account config ++ "?" ++ encodedParams config "" queryTag
    ++ "&" ++ ExtraConfig config
  /\ (forall a b : string,
        esc (a ++ "@" ++ b) = esc a ++ "%40" ++ esc b
        /\ esc (a ++ "/" ++ b) = esc a ++ "%2F" ++ esc b
        /\ esc (a ++ "$" ++ b) = esc a ++ "$" ++ esc b
        /\ esc (a ++ "&" ++ b) = esc a ++ "&" ++ esc b).
Proof.
  intros esc. split.
  - rewrite getConnectionString_shape, locals_userPass. cbn [nonempty].
    subst esc. cbv beta. now rewrite !append_assoc.
  - intros a b. subst esc. cbv beta.
    repeat split; rewrite escape_append; reflexivity.
Qed.

(** C9: the account follows the [@] separator byte for byte, without any
    escaping; the credential prefix before it holds no [@] of its own, so
    the separator is the first [@] of the descriptor. *)
Theorem account_verbatim
    (config : pluginConfig) (password privateKey queryTag : string) :
  let userPass := snd (getConnectionString_locals config password privateKey queryTag) in
  getConnectionString config password privateKey queryTag =
    userPass ++ "@" ++ Account config
    ++ "?" ++ encodedParams config privateKey queryTag ++ "&" ++ ExtraConfig config
  /\ occurs "@" userPass = false.
Proof.
  intros userPass. split; [apply getConnectionString_shape|].
  subst userPass. rewrite locals_userPass.
  destruct (nonempty privateKey).
  - apply escape_no_at.
  - rewrite !occurs_append, !escape_no_at. reflexivity.
Qed.

Example test_QueryEscape :
  url.QueryEscape "a b@c&d=e/f" = "a+b%40c%26d%3De%2Ff".
Proof. vm_compute. reflexivity. Qed.

(** The rows of [TestGetConnectionString]. *)
Example test_with_user_pass :
  getConnectionString test_config "password" "" "" =
  "username:password@account?database=database&role=role&schema=schema&warehouse=warehouse&conf=xxx".
Proof. vm_compute. reflexivity. Qed.

Example test_with_special_char :
  getConnectionString test_config "p@sswor/d" "" "" =
  "username:p%40sswor%2Fd@account?database=database&role=role&schema=schema&warehouse=warehouse&conf=xxx".
Proof. vm_compute. reflexivity. Qed.

Example test_with_query_tag :
  getConnectionString test_config "p@sswor/d" "" "mytag" =
  "username:p%40sswor%2Fd@account?QUERY_TAG=mytag&database=database&role=role&schema=schema&warehouse=warehouse&conf=xxx".
Proof. vm_compute. reflexivity. Qed.

Example test_with_string_to_escape :
  getConnectionString test_config_escape "pa$$s&" "" "" =
  "user%40name:pa$$s&@acc@ount?database=dat%40base&role=ro%40le&schema=sch%40ema&warehouse=ware%40house&conf=xxx".
Proof. vm_compute. reflexivity. Qed.

(** ** The query tag *)



Lemma encode_plain :
  (forall v, plain v = true -> exists b, json.encode v = inl b)
  /\ (forall fs, plain_fields fs = true -> exists l, json.encode_fields fs = inl l).
Proof.
  apply value_and_fields_ind; cbn [plain plain_fields json.encode json.encode_fields];
    try (intros; eexists; reflexivity); try discriminate.
  - intros fs IH H. destruct (IH H) as [l ->]. eexists. reflexivity.
  - intros name omitEmpty v IHv rest IHr H.
    apply andb_prop in H as [Hv Hr].
    destruct (IHv Hv) as [b ->]. destruct (IHr Hr) as [l ->].
    destruct (omitEmpty && json.isEmptyValue v); eexists; reflexivity.
Qed.

Lemma Marshal_plain (v : json.value) :
  plain v = true -> exists b, json.Marshal v = (b, None).
Proof.
  intros H. unfold json.Marshal.
  destruct (proj1 encode_plain v H) as [b ->]. eexists. reflexivity.
Qed.

(** C10: the encoder returns a tag and a nil error on every plugin
    context: the record it serializes holds strings, an integer and
    booleans only, and [Marshal] has no error for such a value. *)
Theorem query_tag_encoder_never_fails (pc : backend.PluginContext) :
  plain (queryTagData_value (queryTagFromContext_qtd pc)) = true
  /\ exists tag, queryTagFromContext pc = (tag, None).
Proof.
  split; [reflexivity|].
  unfold queryTagFromContext.
  destruct (Marshal_plain (queryTagData_value (queryTagFromContext_qtd pc)) eq_refl)
    as [b ->].
  eexists. reflexivity.
Qed.

(** The rows of [TestBuildQueryTag], serialized. *)
Example test_tag_backend :
  queryTagFromContext (test_context None) =
  ("{" ++ quoted "job" ++ ":" ++ quoted "Grafana" ++ "," ++ quoted "org_id" ++ ":123,"
       ++ quoted "is_backend" ++ ":true}", None).
Proof. vm_compute. reflexivity. Qed.

Example test_tag_anonymous :
  queryTagFromContext
    (test_context (Some {| backend.Login := ""; backend.Name := "";
                           backend.Email := ""; backend.Role := "" |})) =
  ("{" ++ quoted "job" ++ ":" ++ quoted "Grafana" ++ "," ++ quoted "org_id" ++ ":123,"
       ++ quoted "is_anonymous" ++ ":true}", None).
Proof. vm_compute. reflexivity. Qed.

(** ** The decoder and the validator *)

Lemma getConfig_Unmarshal (settings : backend.DataSourceInstanceSettings) :
  getConfig settings =
  Unmarshal_pluginConfig (backend.JSONData settings) pluginConfig_zero.
Proof.
  unfold getConfig.
  destruct (Unmarshal_pluginConfig _ _) as [config [e|]]; reflexivity.
Qed.

(** A syntax error of the scanner is the error of [getConfig]. *)
Lemma getConfig_syntax_error (settings : backend.DataSourceInstanceSettings) (e : string) :
  scanner.checkValid (backend.JSONData settings) = Some e ->
  snd (getConfig settings) = Some e.
Proof.
  intros He. rewrite getConfig_Unmarshal.
  unfold Unmarshal_pluginConfig, decode.Unmarshal. rewrite He. reflexivity.
Qed.

Lemma locals_with_ExtraConfig (config : pluginConfig) (extraConfig : string)
    (password privateKey queryTag : string) :
  getConnectionString_locals (with_ExtraConfig config extraConfig)
    password privateKey queryTag =
  getConnectionString_locals config password privateKey queryTag.
Proof. reflexivity. Qed.

(** The rows of [TestGetConfig]. *)
Example test_getConfig_empty_object :
  getConfig (test_settings "{}") = (pluginConfig_zero, None).
Proof. vm_compute. reflexivity. Qed.

Example test_getConfig_account :
  getConfig (test_settings ("{" ++ quoted "account" ++ ":" ++ quoted "test" ++ "}")) =
  ({| Account := "test"; Username := ""; Role := ""; Warehouse := "";
      Database := ""; Schema := ""; ExtraConfig := "" |}, None).
Proof. vm_compute. reflexivity. Qed.

Example test_getConfig_malformed :
  snd (getConfig (test_settings "{")) = Some "unexpected end of JSON input".
Proof. vm_compute. reflexivity. Qed.

Section Validator.

Variable req : backend.CheckHealthRequest.

Let pc := backend.PluginContext_ req.
Let settings := backend.DataSourceInstanceSettings_ pc.

(** C7: when the password and the private key are both empty or absent,
    the validator stops at its first check with the error status and the
    message [Password or private key are required.], whatever the
    configuration bytes and the rest of the request are. *)
Theorem missing_credential_rejected :
  secret (backend.DataSourceInstanceSettings_ (backend.PluginContext_ req)) "password" = "" ->
  secret (backend.DataSourceInstanceSettings_ (backend.PluginContext_ req)) "privateKey" = "" ->
  createAndValidationConnectionString req =
  Failure {| backend.Status := backend.HealthStatusError;
             backend.Message := "Password or private key are required." |}.
Proof.
  intros Hp Hk. unfold createAndValidationConnectionString.
  rewrite Hp, Hk. reflexivity.
Qed.

(** C8: when the configuration bytes are malformed, the scanner rejecting
    them with the message [e], [getConfig] returns an error with exactly
    that message, and, a credential being present, the validator returns
    the error status with the message [Error getting config: ] followed by
    [e]. *)
Theorem decode_error_surfaced (e : string) :
  scanner.checkValid
    (backend.JSONData (backend.DataSourceInstanceSettings_ (backend.PluginContext_ req)))
  = Some e ->
  snd (getConfig (backend.DataSourceInstanceSettings_ (backend.PluginContext_ req))) = Some e
  /\ (nonempty (secret (backend.DataSourceInstanceSettings_ (backend.PluginContext_ req)) "password")
      || nonempty (secret (backend.DataSourceInstanceSettings_ (backend.PluginContext_ req)) "privateKey")
      = true ->
      createAndValidationConnectionString req =
      Failure {| backend.Status := backend.HealthStatusError;
                 backend.Message := "Error getting config: " ++ e |}).
Proof.
  intros He. fold pc settings in He |- *.
  pose proof (getConfig_syntax_error settings e He) as Hc.
  split; [exact Hc|].
  intros Hcred. unfold createAndValidationConnectionString. fold pc settings.
  destruct (getConfig settings) as [config err]. simpl in Hc. subst err.
  destruct (nonempty (secret settings "password")),
    (nonempty (secret settings "privateKey")); try discriminate; reflexivity.
Qed.

(** C1: for a request whose configuration decodes to account [test] and
    user name [user] with every other field empty, with the password
    [pass], no private key, organization 0 and no user, the validator
    returns the descriptor of the test table. *)
Theorem backend_descriptor :
  getConfig (backend.DataSourceInstanceSettings_ (backend.PluginContext_ req)) =
    ({| Account := "test"; Username := "user"; Role := ""; Warehouse := "";
        Database := ""; Schema := ""; ExtraConfig := "" |}, None) ->
  secret (backend.DataSourceInstanceSettings_ (backend.PluginContext_ req)) "password" = "pass" ->
  secret (backend.DataSourceInstanceSettings_ (backend.PluginContext_ req)) "privateKey" = "" ->
  backend.OrgID (backend.PluginContext_ req) = 0%Z ->
  backend.User_ (backend.PluginContext_ req) = None ->
  createAndValidationConnectionString req =
  Descriptor "user:pass@test?QUERY_TAG=%7B%22job%22%3A%22Grafana%22%2C%22org_id%22%3A0%2C%22is_backend%22%3Atrue%7D&database=&role=&schema=&warehouse=&validateDefaultParameters=true".
Proof.
  intros Hc Hp Hk Ho Hu. unfold createAndValidationConnectionString.
  rewrite Hc, Hp, Hk.
  unfold queryTagFromContext, queryTagFromContext_qtd. rewrite Ho, Hu.
  vm_compute. reflexivity.
Qed.

Lemma validator_descriptor (d : string) :
  createAndValidationConnectionString req = Descriptor d ->
  exists config,
    getConfig settings = (config, None)
    /\ d = getConnectionString config (secret settings "password")
             (secret settings "privateKey") (fst (queryTagFromContext pc))
           ++ (if nonempty (ExtraConfig config) then "&" else "")
           ++ "validateDefaultParameters=true".
Proof.
  unfold createAndValidationConnectionString. fold pc settings.
  destruct (negb _ && negb _); [discriminate|].
  destruct (getConfig settings) as [config [err|]]; [discriminate|].
  destruct (negb (nonempty (Account config))); [discriminate|].
  destruct (negb (nonempty (Username config))); [discriminate|].
  destruct (queryTagFromContext pc) as [queryTag [err|]]; [discriminate|].
  intros H. injection H as <-.
  exists config. split; [reflexivity|].
  rewrite !getConnectionString_shape. cbn [fst].
  destruct (nonempty (ExtraConfig config)) eqn:Hx;
    rewrite locals_with_ExtraConfig; cbn [with_ExtraConfig Account ExtraConfig].
  - rewrite !append_assoc. reflexivity.
  - apply nonempty_false in Hx. rewrite Hx. rewrite !append_assoc. reflexivity.
Qed.

End Validator.

(** C2, as the code has it: the assembler's descriptor ends with [&] and
    the literal [extraConfig]; a descriptor the validator returns is the
    assembler's descriptor for the decoded configuration followed by
    [validateDefaultParameters=true], after a [&] when [extraConfig] is not
    empty. *)
Theorem extraConfig_verbatim :
  (forall config password privateKey queryTag,
     getConnectionString config password privateKey queryTag =
     (snd (getConnectionString_locals config password privateKey queryTag)
      ++ "@" ++ Account config ++ "?" ++ encodedParams config privateKey queryTag)
     ++ "&" ++ ExtraConfig config)
  /\ (forall req d,
        createAndValidationConnectionString req = Descriptor d ->
        let pc := backend.PluginContext_ req in
        let settings := backend.DataSourceInstanceSettings_ pc in
        exists config,
          getConfig settings = (config, None)
          /\ d = getConnectionString config (secret settings "password")
                   (secret settings "privateKey") (fst (queryTagFromContext pc))
                 ++ (if nonempty (ExtraConfig config) then "&" else "")
                 ++ "validateDefaultParameters=true").
Proof.
  split.
  - intros. rewrite getConnectionString_shape. now rewrite !append_assoc.
  - intros req d H. exact (validator_descriptor req d H).
Qed.

Lemma missing_credential_rejected_witness :
  createAndValidationConnectionString test_row_1 =
  Failure {| backend.Status := backend.HealthStatusError;
             backend.Message := "Password or private key are required." |}.
Proof. apply (missing_credential_rejected test_row_1); reflexivity. Defined.

Lemma decode_error_surfaced_witness :
  snd (getConfig (backend.DataSourceInstanceSettings_ (backend.PluginContext_ test_row_2))) =
    Some "unexpected end of JSON input"
  /\ createAndValidationConnectionString test_row_2 =
     Failure {| backend.Status := backend.HealthStatusError;
                backend.Message := "Error getting config: unexpected end of JSON input" |}.
Proof.
  assert (H : scanner.checkValid
                (backend.JSONData
                   (backend.DataSourceInstanceSettings_ (backend.PluginContext_ test_row_2)))
              = Some "unexpected end of JSON input")
    by (vm_compute; reflexivity).
  destruct (decode_error_surfaced test_row_2 _ H) as [Hc Hv].
  split; [exact Hc|]. apply Hv. reflexivity.
Defined.

Lemma backend_descriptor_witness :
  createAndValidationConnectionString test_row_5 =
  Descriptor "user:pass@test?QUERY_TAG=%7B%22job%22%3A%22Grafana%22%2C%22org_id%22%3A0%2C%22is_backend%22%3Atrue%7D&database=&role=&schema=&warehouse=&validateDefaultParameters=true".
Proof.
  apply (backend_descriptor test_row_5); vm_compute; reflexivity.
Defined.

Lemma extraConfig_verbatim_witness :
  exists config,
    getConfig (backend.DataSourceInstanceSettings_ (backend.PluginContext_ test_row_6)) = (config, None)
    /\ "user:pass@test?QUERY_TAG=%7B%22job%22%3A%22Grafana%22%2C%22org_id%22%3A0%2C%22is_backend%22%3Atrue%7D&database=&role=&schema=&warehouse=&config=conf&validateDefaultParameters=true"
       = getConnectionString config "pass" ""
           (fst (queryTagFromContext (backend.PluginContext_ test_row_6)))
         ++ (if nonempty (ExtraConfig config) then "&" else "")
         ++ "validateDefaultParameters=true".
Proof.
  apply (proj2 extraConfig_verbatim test_row_6). vm_compute. reflexivity.
Defined.

(** C2 as the claim words it fails on the sixth row of the table: the
    validator succeeds, [extraConfig] is [config=conf], and the descriptor
    does not end with it. *)
Lemma validator_descriptor_not_ending_in_extraConfig :
  exists d,
    createAndValidationConnectionString test_row_6 = Descriptor d
    /\ ExtraConfig (fst (getConfig (backend.DataSourceInstanceSettings_ (backend.PluginContext_ test_row_6))))
       = "config=conf"
    /\ ~ (exists p, d = p ++ "config=conf").
Proof.
  eexists. split; [vm_compute; reflexivity|].
  split; [vm_compute; reflexivity|].
  intros [p Hp].
  apply (f_equal (fun s => HasSuffix s "config=conf")) in Hp.
  rewrite HasSuffix_append in Hp. vm_compute in Hp. discriminate Hp.
Qed.

(** The validator never takes its internal-error exit. *)
Lemma validator_never_internal_error (req : backend.CheckHealthRequest) (e : string) :
  createAndValidationConnectionString req <> InternalError e.
Proof.
  unfold createAndValidationConnectionString.
  destruct (_ && _); [discriminate|].
  destruct (getConfig _) as [config [err|]]; [discriminate|].
  destruct (negb (nonempty (Account config))); [discriminate|].
  destruct (negb (nonempty (Username config))); [discriminate|].
  unfold queryTagFromContext.
  destruct (Marshal_plain
              (queryTagData_value (queryTagFromContext_qtd (backend.PluginContext_ req)))
              eq_refl) as [b ->].
  discriminate.
Qed.

(** ** The query handler *)

Lemma queryTagFromContext_ok (pc : backend.PluginContext) :
  queryTagFromContext pc = (fst (queryTagFromContext pc), None).
Proof.
  unfold queryTagFromContext.
  destruct (Marshal_plain (queryTagData_value (queryTagFromContext_qtd pc)) eq_refl)
    as [b ->].
  reflexivity.
Qed.

Lemma foldl_insert_lookup {A B : Type}
    (key : A -> string) (f : A -> B) (l : list A) (m : gmap string B) (k : string) :
  foldl (fun m x => <[ key x := f x ]> m) m l !! k =
  match list.last (List.filter (fun x => String.eqb (key x) k) l) with
  | Some x => Some (f x)
  | None => m !! k
  end.
Proof.
  revert m. induction l as [|x l IH]; intros m; [reflexivity|].
  cbn [foldl List.filter]. rewrite IH.
  destruct (String.eqb_spec (key x) k) as [E|N].
  - rewrite last_cons. destruct (list.last _); [reflexivity|].
    rewrite E. apply lookup_insert_eq.
  - destruct (list.last _); [reflexivity|]. now apply lookup_insert_ne.
Qed.

Section QueryDataProperties.

Context {DataQuery DataResponse : Type}.
Variable RefID : DataQuery -> string.
Variable query : DataQuery -> pluginConfig -> string -> string -> string -> DataResponse.
Variable req : QueryDataRequest DataQuery.

Let pc := QueryData_PluginContext req.
Let settings := backend.DataSourceInstanceSettings_ pc.

(** X1: [QueryData] returns an error exactly when [getConfig] does, and
    then it is that error and the response holds no entry: the query tag
    never makes it fail. *)
Theorem QueryData_fails_with_getConfig :
  snd (QueryData RefID query req) =
    snd (getConfig (backend.DataSourceInstanceSettings_ (QueryData_PluginContext req)))
  /\ (snd (QueryData RefID query req) <> None -> fst (QueryData RefID query req) = ∅).
Proof.
  unfold QueryData. fold pc settings.
  rewrite (queryTagFromContext_ok pc).
  destruct (getConfig settings) as [config [e|]]; cbn [fst snd]; split; congruence.
Qed.

(** X2: when the configuration decodes, the response has an entry for a
    [RefID] exactly when a query carries it, and the entry is the result of
    the last query with that [RefID], run with the decoded configuration,
    the two secrets and the query tag of the request's context. *)
Theorem QueryData_responses (config : pluginConfig) (refID : string) :
  getConfig (backend.DataSourceInstanceSettings_ (QueryData_PluginContext req)) =
    (config, None) ->
  snd (QueryData RefID query req) = None
  /\ fst (QueryData RefID query req) !! refID =
     (fun q => query q config
                 (secret (backend.DataSourceInstanceSettings_ (QueryData_PluginContext req))
                         "password")
                 (secret (backend.DataSourceInstanceSettings_ (QueryData_PluginContext req))
                         "privateKey")
                 (fst (queryTagFromContext (QueryData_PluginContext req))))
     <$> list.last (List.filter (fun q => String.eqb (RefID q) refID) (Queries req)).
Proof.
  intros Hc. unfold QueryData. fold pc settings in Hc |- *.
  rewrite Hc, (queryTagFromContext_ok pc). cbn [fst snd]. split; [reflexivity|].
  rewrite foldl_insert_lookup.
  destruct (list.last _); [reflexivity | apply lookup_empty].
Qed.

End QueryDataProperties.

Lemma QueryData_fails_with_getConfig_witness :
  let run (q : string * string) (config : pluginConfig) (password privateKey queryTag : string) :=
    getConnectionString config password privateKey queryTag in
  let req := {| QueryData_PluginContext := backend.PluginContext_ test_row_2;
                Queries := [("A", "select 1")] |} in
  QueryData fst run req = (∅, Some "unexpected end of JSON input").
Proof.
  intros run req.
  destruct (QueryData_fails_with_getConfig fst run req) as [He Hr].
  destruct (QueryData fst run req) as [responses err]. cbn [fst snd] in He, Hr.
  rewrite He in Hr |- *. rewrite Hr; [reflexivity | discriminate].
Defined.

Lemma QueryData_responses_witness :
  let run (q : string * string) (config : pluginConfig) (password privateKey queryTag : string) :=
    (snd q, getConnectionString config password privateKey queryTag) in
  fst (QueryData fst run test_query_request) !! "A" =
  Some ("select 3",
        "user:pass@test?QUERY_TAG=%7B%22job%22%3A%22Grafana%22%2C%22org_id%22%3A0%2C%22is_backend%22%3Atrue%7D&database=&role=&schema=&warehouse=&").
Proof.
  intros run.
  destruct (QueryData_responses fst run test_query_request
              {| Account := "test"; Username := "user"; Role := ""; Warehouse := "";
                 Database := ""; Schema := ""; ExtraConfig := "" |} "A") as [_ H].
  - vm_compute. reflexivity.
  - rewrite H. vm_compute. reflexivity.
Defined.

(** ** What escaping keeps and what it rules out *)

Lemma count_append (c : ascii) (a b : string) :
  count c (a ++ b) = (count c a + count c b)%nat.
Proof.
  induction a as [|x a IH]; [reflexivity|].
  rewrite append_cons. cbn [count]. rewrite IH. lia.
Qed.

Lemma occurs_count (c : ascii) (s : string) : occurs c s = false <-> count c s = 0%nat.
Proof.
  induction s as [|x s IH]; cbn [occurs count]; [easy|].
  destruct (Ascii.eqb c x); cbn [orb]; [split; [discriminate | lia] | exact IH].
Qed.

Lemma QueryEscape_byte_separators (c : ascii) :
  count "&" (url.escape_byte url.encodeQueryComponent c) = 0%nat
  /\ count "=" (url.escape_byte url.encodeQueryComponent c) = 0%nat.
Proof. destruct c as [[] [] [] [] [] [] [] []]; vm_compute; split; reflexivity. Qed.

Lemma QueryEscape_separators (s : string) :
  count "&" (url.QueryEscape s) = 0%nat /\ count "=" (url.QueryEscape s) = 0%nat.
Proof.
  unfold url.QueryEscape. induction s as [|x s [IHa IHe]]; [split; reflexivity|].
  rewrite escape_cons, !count_append, IHa, IHe.
  destruct (QueryEscape_byte_separators x) as [-> ->]. split; reflexivity.
Qed.

Lemma userinfo_byte_reserved (c : ascii) :
  occurs ":" (url.escape_byte url.encodeUserPassword c) = false
  /\ occurs "/" (url.escape_byte url.encodeUserPassword c) = false
  /\ occurs "?" (url.escape_byte url.encodeUserPassword c) = false.
Proof. destruct c as [[] [] [] [] [] [] [] []]; vm_compute; repeat split; reflexivity. Qed.

Lemma userinfo_reserved (s : string) :
  occurs ":" (url.escape s url.encodeUserPassword) = false
  /\ occurs "/" (url.escape s url.encodeUserPassword) = false
  /\ occurs "?" (url.escape s url.encodeUserPassword) = false.
Proof.
  induction s as [|x s (IH1 & IH2 & IH3)]; [repeat split; reflexivity|].
  rewrite escape_cons, !occurs_append, IH1, IH2, IH3.
  destruct (userinfo_byte_reserved x) as (-> & -> & ->). repeat split; reflexivity.
Qed.

Lemma unescape_escape_byte (mode : url.encoding) (c : ascii) (rest : string) :
  unescape mode (url.escape_byte mode c ++ rest) 0 = String c (unescape mode rest 0).
Proof.
  destruct mode; destruct c as [[] [] [] [] [] [] [] []]; reflexivity.
Qed.

Lemma unescape_escape (mode : url.encoding) (s : string) :
  unescape mode (url.escape s mode) 0 = s.
Proof.
  induction s as [|x s IH]; [reflexivity|].
  now rewrite escape_cons, unescape_escape_byte, IH.
Qed.

Lemma escape_injective (mode : url.encoding) (a b : string) :
  url.escape a mode = url.escape b mode -> a = b.
Proof.
  intros H. rewrite <- (unescape_escape mode a), <- (unescape_escape mode b).
  now rewrite H.
Qed.

(** Two strings cut at the first [c] are equal only piece by piece. *)
Lemma split_at_first (c : ascii) (a b a' b' : string) :
  occurs c a = false -> occurs c a' = false ->
  a ++ String c b = a' ++ String c b' -> a = a' /\ b = b'.
Proof.
  revert a'. induction a as [|x a IH]; intros [|x' a']; cbn [occurs];
    rewrite ?append_cons, ?append_nil_l; intros Ha Ha' E.
  - injection E as ->. split; reflexivity.
  - injection E as -> _. rewrite Ascii.eqb_refl in Ha'. discriminate.
  - injection E as -> _. rewrite Ascii.eqb_refl in Ha. discriminate.
  - injection E as -> E. apply orb_false_elim in Ha as [_ Ha].
    apply orb_false_elim in Ha' as [_ Ha'].
    destruct (IH a' Ha Ha' E) as [-> ->]. split; reflexivity.
Qed.

(** X3: in the encoded parameters of every descriptor [=] occurs once per
    parameter and [&] only between two parameters, whatever bytes the
    role, warehouse, database, schema, query tag and private key hold: a
    value cannot add a parameter. *)
Theorem parameter_values_cannot_inject
    (config : pluginConfig) (password privateKey queryTag : string) :
  let params := fst (getConnectionString_locals config password privateKey queryTag) in
  count "=" (url.Encode params) = List.length (url.sortedKeys params)
  /\ S (count "&" (url.Encode params)) = List.length (url.sortedKeys params).
Proof.
  intros params. subst params. rewrite locals_Encode, locals_sortedKeys.
  unfold encodedParams.
  destruct (QueryEscape_separators queryTag) as [Ta Te].
  destruct (QueryEscape_separators privateKey) as [Ka Ke].
  destruct (QueryEscape_separators (Database config)) as [Da De].
  destruct (QueryEscape_separators (Role config)) as [Ra Re].
  destruct (QueryEscape_separators (Schema config)) as [Sa Se].
  destruct (QueryEscape_separators (Warehouse config)) as [Wa We].
  destruct (nonempty queryTag), (nonempty privateKey);
    rewrite !count_append, ?Ta, ?Te, ?Ka, ?Ke, ?Da, ?De, ?Ra, ?Re, ?Sa, ?Se, ?Wa, ?We;
    split; reflexivity.
Qed.

(** X4: the descriptor determines the user name, whether a private key was
    given and, without a private key, the password: two calls that return
    the same descriptor agree on them.  In particular a descriptor built
    with a private key is never one built with a password. *)
Theorem descriptor_determines_credentials
    (c1 c2 : pluginConfig) (p1 p2 k1 k2 t1 t2 : string) :
  getConnectionString c1 p1 k1 t1 = getConnectionString c2 p2 k2 t2 ->
  Username c1 = Username c2
  /\ nonempty k1 = nonempty k2
  /\ (k1 = "" -> p1 = p2).
Proof.
  rewrite !getConnectionString_shape. intros E.
  apply (split_at_first "@") in E as [E _].
  2,3: rewrite locals_userPass; destruct (nonempty _);
       rewrite ?occurs_append, !escape_no_at; reflexivity.
  rewrite !locals_userPass in E.
  destruct (userinfo_reserved (Username c1)) as (U1 & _).
  destruct (userinfo_reserved (Username c2)) as (U2 & _).
  destruct (nonempty k1) eqn:N1, (nonempty k2) eqn:N2.
  - apply escape_injective in E. split; [exact E|]. split; [reflexivity|].
    intros ->. discriminate N1.
  - exfalso. apply (f_equal (occurs ":")) in E.
    rewrite !occurs_append, U1, U2 in E. cbn in E. discriminate E.
  - exfalso. apply (f_equal (occurs ":")) in E.
    rewrite !occurs_append, U1, U2 in E. cbn in E. discriminate E.
  - apply (split_at_first ":") in E as [Eu Ep]; [|exact U1|exact U2].
    apply escape_injective in Eu, Ep. auto.
Qed.

Lemma descriptor_determines_credentials_witness :
  let c1 := {| Account := "a"; Username := "u"; Role := ""; Warehouse := "";
               Database := ""; Schema := "";
               ExtraConfig := "x?database=&role=&schema=&warehouse=&y" |} in
  let c2 := {| Account := "a?database=&role=&schema=&warehouse=&x"; Username := "u";
               Role := ""; Warehouse := ""; Database := ""; Schema := "";
               ExtraConfig := "y" |} in
  getConnectionString c1 "p" "" "" = getConnectionString c2 "p" "" ""
  /\ Account c1 <> Account c2
  /\ Username c1 = Username c2.
Proof.
  intros c1 c2.
  assert (E : getConnectionString c1 "p" "" "" = getConnectionString c2 "p" "" "")
    by (vm_compute; reflexivity).
  split; [exact E|]. split; [discriminate|].
  exact (proj1 (descriptor_determines_credentials _ _ _ _ _ _ _ _ E)).
Defined.

Lemma escape_unreserved (mode : url.encoding) (s : string) :
  all_bytes unreserved s = true -> url.escape s mode = s.
Proof.
  induction s as [|x s IH]; [reflexivity|].
  cbn [all_bytes]. intros H. apply andb_prop in H as [Hx Hs].
  rewrite escape_cons, (IH Hs).
  replace (url.escape_byte mode x) with (str1 x); [reflexivity|].
  revert Hx. destruct mode; destruct x as [[] [] [] [] [] [] [] []];
    vm_compute; intros H; try reflexivity; discriminate H.
Qed.

(** X5: when the user name, the password, the role, the warehouse, the
    database and the schema hold only letters, digits, [-], [_], [.] and
    [~], nothing is escaped: without a private key and a query tag the
    descriptor is the plain concatenation of the fields. *)
Theorem unreserved_fields_plain (config : pluginConfig) (password : string) :
  all_bytes unreserved (Username config) = true ->
  all_bytes unreserved password = true ->
  all_bytes unreserved (Role config) = true ->
  all_bytes unreserved (Warehouse config) = true ->
  all_bytes unreserved (Database config) = true ->
  all_bytes unreserved (Schema config) = true ->
  getConnectionString config password "" "" =
  Username config ++ ":" ++ password ++ "@" ++ Account config
  ++ "?database=" ++ Database config ++ "&role=" ++ Role config
  ++ "&schema=" ++ Schema config ++ "&warehouse=" ++ Warehouse config
  ++ "&" ++ ExtraConfig config.
Proof.
  intros Hu Hp Hr Hw Hd Hs.
  rewrite getConnectionString_shape, locals_userPass. unfold encodedParams, url.QueryEscape.
  cbn [nonempty]. rewrite !escape_unreserved by assumption.
  rewrite !append_assoc. reflexivity.
Qed.

Lemma unreserved_fields_plain_witness :
  getConnectionString test_config "password" "" "" =
  "username:password@account?database=database&role=role&schema=schema&warehouse=warehouse&conf=xxx".
Proof.
  rewrite (unreserved_fields_plain test_config "password"); reflexivity.
Defined.

(** ** Reading the configuration *)

Lemma string_body_ascii (c : ascii) (r : string) :
  ascii7 c = true ->
  json.string_body (String c r) 0 true = json_piece c ++ json.string_body r 0 true.
Proof.
  unfold ascii7. intros H. cbn [json.string_body]. rewrite H. reflexivity.
Qed.

Lemma continued_append (a b : string) :
  continued (a ++ b) = (continued a ++ continued b)%list.
Proof.
  induction a as [|x a IH]; [reflexivity|].
  rewrite append_cons. cbn [continued app]. now rewrite IH.
Qed.

Lemma scan_piece (c : ascii) (rest : string) et ps er :
  ascii7 c = true ->
  scanner.ops_from (json_piece c ++ rest) (inString et ps er) =
    (continued (json_piece c) ++ scanner.ops_from rest (inString et ps er))%list
  /\ scanner.checkValid_from (json_piece c ++ rest) (inString et ps er) =
     scanner.checkValid_from rest (inString et ps er).
Proof.
  destruct c as [[] [] [] [] [] [] [] []]; intros H;
    try (vm_compute in H; discriminate H); split; reflexivity.
Qed.

Lemma scan_string_body (s rest : string) et ps er :
  all_bytes ascii7 s = true ->
  scanner.ops_from (json.string_body s 0 true ++ rest) (inString et ps er) =
    (continued (json.string_body s 0 true)
     ++ scanner.ops_from rest (inString et ps er))%list
  /\ scanner.checkValid_from (json.string_body s 0 true ++ rest) (inString et ps er) =
     scanner.checkValid_from rest (inString et ps er).
Proof.
  induction s as [|c s IH]; [split; reflexivity|].
  cbn [all_bytes]. intros H. apply andb_prop in H as [Hc Hs].
  destruct (IH Hs) as [IHo IHv].
  rewrite (string_body_ascii c s Hc), append_assoc.
  destruct (scan_piece c (json.string_body s 0 true ++ rest) et ps er Hc) as [-> ->].
  rewrite IHo, IHv, continued_append, <- app_assoc. split; reflexivity.
Qed.

Lemma unquote_piece (c : ascii) (rest : string) :
  ascii7 c = true ->
  decode.unquote_body (json_piece c ++ rest) 0 =
  decode.emit (str1 c) (decode.unquote_body rest 0).
Proof.
  destruct c as [[] [] [] [] [] [] [] []]; intros H;
    try (vm_compute in H; discriminate H); reflexivity.
Qed.

Lemma unquote_string_body (s : string) :
  all_bytes ascii7 s = true ->
  decode.unquote_body (json.string_body s 0 true) 0 = Some s.
Proof.
  induction s as [|c s IH]; [reflexivity|].
  cbn [all_bytes]. intros H. apply andb_prop in H as [Hc Hs].
  rewrite (string_body_ascii c s Hc), (unquote_piece c _ Hc), (IH Hs). reflexivity.
Qed.

Lemma last_byte_snoc (b : string) (q : ascii) : decode.last_byte (b ++ str1 q) = Some q.
Proof.
  induction b as [|x b IH]; [reflexivity|].
  rewrite append_cons. cbn [decode.last_byte]. rewrite IH.
  destruct b; reflexivity.
Qed.

Lemma drop_last_snoc (b : string) (q : ascii) : decode.drop_last (b ++ str1 q) = b.
Proof.
  induction b as [|x b IH]; [reflexivity|].
  rewrite append_cons. cbn [decode.drop_last]. rewrite IH.
  destruct b; reflexivity.
Qed.

Lemma unquoteBytes_quoted (b : string) :
  decode.unquoteBytes (quoted b) = decode.unquote_body b 0.
Proof.
  unfold decode.unquoteBytes, quoted.
  pose proof (last_byte_snoc b dquote) as Hl. pose proof (drop_last_snoc b dquote) as Hd.
  destruct (b ++ str1 dquote) as [|x r] eqn:E.
  - destruct b; discriminate E.
  - rewrite Hl, Hd. reflexivity.
Qed.

Lemma run_key (ty : decode.structType) (d : decode.state) (lit b : string)
    (l : list (ascii * scanner.opcode)) :
  decode.run ty (decode.goto d (decode.InKey lit)) (continued b ++ l) =
  decode.run ty (decode.goto d (decode.InKey (lit ++ b))) l.
Proof.
  revert lit. induction b as [|c b IH]; intros lit.
  - now rewrite append_nil_r.
  - cbn [continued app decode.run].
    change (decode.step ty (decode.goto d (decode.InKey lit)) c scanner.scanContinue)
      with (decode.goto d (decode.InKey (decode.snoc lit c))).
    rewrite IH. unfold decode.snoc. now rewrite append_assoc.
Qed.

Lemma run_value (ty : decode.structType) (d : decode.state) (f : option nat)
    (lit b : string) (l : list (ascii * scanner.opcode)) :
  decode.run ty (decode.goto d (decode.InValueLiteral f lit)) (continued b ++ l) =
  decode.run ty (decode.goto d (decode.InValueLiteral f (lit ++ b))) l.
Proof.
  revert lit. induction b as [|c b IH]; intros lit.
  - now rewrite append_nil_r.
  - cbn [continued app decode.run].
    change (decode.step ty (decode.goto d (decode.InValueLiteral f lit)) c
              scanner.scanContinue)
      with (decode.goto d (decode.InValueLiteral f (decode.snoc lit c))).
    rewrite IH. unfold decode.snoc. now rewrite append_assoc.
Qed.

Lemma one_member_bytes (key value : string) :
  one_member key value =
  String "{" (String dquote
    (json.string_body key 0 true ++
     String dquote (String ":" (String dquote
       (json.string_body value 0 true ++ String dquote "}"))))).
Proof.
  unfold one_member, json.appendString, quoted.
  rewrite !append_cons, !append_nil_l, !append_assoc. reflexivity.
Qed.

Lemma one_member_valid (key value : string) :
  all_bytes ascii7 key = true -> all_bytes ascii7 value = true ->
  scanner.checkValid (one_member key value) = None.
Proof.
  intros Hk Hv. rewrite one_member_bytes. unfold scanner.checkValid.
  change (scanner.checkValid_from (String "{" (String dquote ?x)) scanner.reset)
    with (scanner.checkValid_from x (inString false [scanner.parseObjectKey] None)).
  rewrite (proj2 (scan_string_body key _ _ _ _ Hk)).
  change (scanner.checkValid_from
            (String dquote (String ":" (String dquote ?x)))
            (inString false [scanner.parseObjectKey] None))
    with (scanner.checkValid_from x (inString false [scanner.parseObjectValue] None)).
  rewrite (proj2 (scan_string_body value _ _ _ _ Hv)).
  reflexivity.
Qed.

Lemma one_member_ops (key value : string) :
  all_bytes ascii7 key = true -> all_bytes ascii7 value = true ->
  scanner.ops (one_member key value) =
  (("{"%char, scanner.scanBeginObject) :: (dquote, scanner.scanBeginLiteral)
   :: continued (json.string_body key 0 true)
   ++ (dquote, scanner.scanContinue) :: (":"%char, scanner.scanObjectKey)
   :: (dquote, scanner.scanBeginLiteral)
   :: continued (json.string_body value 0 true)
   ++ [(dquote, scanner.scanContinue); ("}"%char, scanner.scanEndObject)])%list.
Proof.
  intros Hk Hv. rewrite one_member_bytes. unfold scanner.ops.
  change (scanner.ops_from (String "{" (String dquote ?x)) scanner.reset)
    with (("{"%char, scanner.scanBeginObject) :: (dquote, scanner.scanBeginLiteral)
          :: scanner.ops_from x (inString false [scanner.parseObjectKey] None)).
  rewrite (proj1 (scan_string_body key _ _ _ _ Hk)).
  change (scanner.ops_from
            (String dquote (String ":" (String dquote ?x)))
            (inString false [scanner.parseObjectKey] None))
    with ((dquote, scanner.scanContinue) :: (":"%char, scanner.scanObjectKey)
          :: (dquote, scanner.scanBeginLiteral)
          :: scanner.ops_from x (inString false [scanner.parseObjectValue] None)).
  rewrite (proj1 (scan_string_body value _ _ _ _ Hv)).
  reflexivity.
Qed.

Lemma step_value_end (ty : decode.structType) (d : decode.state) (i : nat) (b : string) :
  decode.step ty
    (decode.step ty (decode.goto d (decode.InValueLiteral (Some i) (str1 dquote ++ b)))
       dquote scanner.scanContinue)
    "}" scanner.scanEndObject =
  decode.goto
    (decode.literalStore ty (decode.goto d (decode.InValueLiteral (Some i) (quoted b)))
       (Some i) (quoted b))
    decode.Done.
Proof. reflexivity. Qed.

Lemma literalStore_quoted (ty : decode.structType) (d : decode.state) (i : nat)
    (b v : string) :
  decode.unquoteBytes (quoted b) = Some v ->
  decode.literalStore ty d (Some i) (quoted b) =
  {| decode.at_ := decode.at_ d; decode.values := <[ i := v ]> (decode.values d);
     decode.savedError := decode.savedError d |}.
Proof.
  intros H. unfold decode.literalStore.
  change (quoted b) with (String dquote (b ++ str1 dquote)) at 1.
  change (Ascii.eqb dquote "n") with false.
  change (byte_in dquote ["t"; "f"]%char) with false.
  change (Ascii.eqb dquote dquote) with true.
  cbv iota. now rewrite H.
Qed.

(** X7: a document of one member whose key and value a JSON encoder wrote
    for two strings of bytes below 0x80, the key naming a field of the
    configuration exactly or up to the case of its letters, decodes
    without error to the configuration with that field set to the value
    string and every other field empty: escaping on the way in and
    unescaping on the way out cancel. *)
Theorem getConfig_reads_encoded_member
    (settings : backend.DataSourceInstanceSettings) (key value : string) (i : nat) :
  backend.JSONData settings = one_member key value ->
  all_bytes ascii7 key = true -> all_bytes ascii7 value = true ->
  decode.findField (decode.fieldNames pluginConfig_type) key = Some i ->
  getConfig settings =
  (pluginConfig_of_fields (<[ i := value ]> (pluginConfig_fields pluginConfig_zero)), None).
Proof.
  intros Hd Hk Hv Hf. rewrite getConfig_Unmarshal, Hd.
  unfold Unmarshal_pluginConfig, decode.Unmarshal.
  rewrite (one_member_valid key value Hk Hv), (one_member_ops key value Hk Hv).
  set (d0 := {| decode.at_ := decode.AtTop;
                decode.values := pluginConfig_fields pluginConfig_zero;
                decode.savedError := None |}).
  change (decode.run pluginConfig_type d0
            (("{"%char, scanner.scanBeginObject) :: (dquote, scanner.scanBeginLiteral) :: ?l))
    with (decode.run pluginConfig_type (decode.goto d0 (decode.InKey (str1 dquote))) l).
  rewrite run_key.
  change (decode.run pluginConfig_type
            (decode.goto d0 (decode.InKey (str1 dquote ++ json.string_body key 0 true)))
            ((dquote, scanner.scanContinue) :: (":"%char, scanner.scanObjectKey)
             :: (dquote, scanner.scanBeginLiteral) :: ?l))
    with (decode.run pluginConfig_type
            (decode.goto d0
               (decode.InValueLiteral
                  match decode.unquoteBytes (quoted (json.string_body key 0 true)) with
                  | Some k => decode.findField (decode.fieldNames pluginConfig_type) k
                  | None => None
                  end
                  (str1 dquote)))
            l).
  rewrite unquoteBytes_quoted, (unquote_string_body key Hk), Hf, run_value.
  cbn [decode.run]. rewrite step_value_end.
  rewrite (literalStore_quoted _ _ _ _ value)
    by now rewrite unquoteBytes_quoted, unquote_string_body.
  reflexivity.
Qed.

Lemma getConfig_reads_encoded_member_witness :
  getConfig (test_settings (one_member "ACCOUNT" ("a\b" ++ str1 dquote ++ "<c>&" ++ str1 "010"))) =
  ({| Account := "a\b" ++ str1 dquote ++ "<c>&" ++ str1 "010"; Username := ""; Role := "";
      Warehouse := ""; Database := ""; Schema := ""; ExtraConfig := "" |}, None).
Proof.
  apply (getConfig_reads_encoded_member _ "ACCOUNT" _ 0); reflexivity.
Defined.

Lemma checkValid_blank (data : string) :
  all_bytes scanner.isSpace data = true ->
  scanner.checkValid data = Some "unexpected end of JSON input".
Proof.
  unfold scanner.checkValid. induction data as [|c data IH]; [reflexivity|].
  cbn [all_bytes]. intros H. apply andb_prop in H as [Hc Hd].
  cbn [scanner.checkValid_from].
  replace (scanner.step_fn scanner.reset c) with (scanner.reset, scanner.scanSkipSpace).
  - exact (IH Hd).
  - unfold scanner.step_fn. cbn [scanner.step scanner.reset].
    unfold scanner.stateBeginValue_fn. now rewrite Hc.
Qed.

(** X6: configuration bytes that are empty or hold only spaces, tabs,
    carriage returns and line feeds do not decode: [getConfig] returns the
    zero configuration and the error [unexpected end of JSON input]. *)
Theorem getConfig_blank (settings : backend.DataSourceInstanceSettings) :
  all_bytes scanner.isSpace (backend.JSONData settings) = true ->
  getConfig settings = (pluginConfig_zero, Some "unexpected end of JSON input").
Proof.
  intros H. rewrite getConfig_Unmarshal.
  unfold Unmarshal_pluginConfig, decode.Unmarshal.
  rewrite (checkValid_blank _ H). reflexivity.
Qed.

Lemma getConfig_blank_witness :
  getConfig (test_settings "") = (pluginConfig_zero, Some "unexpected end of JSON input")
  /\ getConfig (test_settings (" " ++ str1 "010" ++ str1 "009")) =
     (pluginConfig_zero, Some "unexpected end of JSON input").
Proof.
  split; apply getConfig_blank; reflexivity.
Defined.

(** ** The query tag on the wire *)

Lemma join_comma_cons (x : string) (l : list string) :
  json.join_comma (x :: l) = x ++ commas l.
Proof.
  revert x. induction l as [|y l IH]; intros x.
  - cbn. now rewrite append_nil_r.
  - change (json.join_comma (x :: y :: l)) with (x ++ "," ++ json.join_comma (y :: l)).
    now rewrite IH.
Qed.

Lemma commas_app (a b : list string) : commas (a ++ b) = commas a ++ commas b.
Proof.
  induction a as [|x a IH]; [reflexivity|].
  cbn [app commas]. now rewrite IH, !append_assoc.
Qed.

Lemma encode_fields_omitempty_string (name v : string) (rest : json.fields)
    (parts : list string) :
  json.encode_fields rest = inl parts ->
  json.encode_fields (json.FCons name true (json.String_ v) rest) =
  inl ((if nonempty v then [(json.appendString name ++ ":" ++ json.appendString v)%string] else [])
       ++ parts)%list.
Proof.
  intros H. cbn [json.encode_fields json.encode json.isEmptyValue andb]. rewrite H.
  destruct (nonempty v); reflexivity.
Qed.

Lemma encode_fields_omitempty_bool (name : string) (b : bool) (rest : json.fields)
    (parts : list string) :
  json.encode_fields rest = inl parts ->
  json.encode_fields (json.FCons name true (json.Bool b) rest) =
  inl ((if b then [(json.appendString name ++ ":true")%string] else []) ++ parts)%list.
Proof.
  intros H. cbn [json.encode_fields json.encode json.isEmptyValue andb]. rewrite H.
  destruct b; reflexivity.
Qed.

Lemma encode_fields_always (name : string) (v : json.value) (rest : json.fields)
    (b : string) (parts : list string) :
  json.encode v = inl b ->
  json.encode_fields rest = inl parts ->
  json.encode_fields (json.FCons name false v rest) =
  inl ((json.appendString name ++ ":" ++ b)%string :: parts).
Proof.
  intros Hv Hr. cbn [json.encode_fields andb]. now rewrite Hv, Hr.
Qed.

Lemma encode_fields_eq (q : queryTagData) :
  json.encode_fields
    (json.FCons "job" false (json.String_ (Job q))
    (json.FCons "org_id" false (json.Int64 (OrgId q))
    (json.FCons "user_login" true (json.String_ (UserLogin q))
    (json.FCons "user_name" true (json.String_ (UserName q))
    (json.FCons "user_email" true (json.String_ (UserEmail q))
    (json.FCons "user_role" true (json.String_ (UserRole q))
    (json.FCons "is_backend" true (json.Bool (IsBackend q))
    (json.FCons "is_anonymous" true (json.Bool (IsAnonymous q))
     json.FNil)))))))) =
  inl ([(json.appendString "job" ++ ":" ++ json.appendString (Job q))%string;
        (json.appendString "org_id" ++ ":" ++ json.FormatInt (OrgId q))%string]
       ++ (if nonempty (UserLogin q)
           then [(json.appendString "user_login" ++ ":" ++ json.appendString (UserLogin q))%string]
           else [])
       ++ (if nonempty (UserName q)
           then [(json.appendString "user_name" ++ ":" ++ json.appendString (UserName q))%string]
           else [])
       ++ (if nonempty (UserEmail q)
           then [(json.appendString "user_email" ++ ":" ++ json.appendString (UserEmail q))%string]
           else [])
       ++ (if nonempty (UserRole q)
           then [(json.appendString "user_role" ++ ":" ++ json.appendString (UserRole q))%string]
           else [])
       ++ (if IsBackend q then [(json.appendString "is_backend" ++ ":true")%string] else [])
       ++ (if IsAnonymous q then [(json.appendString "is_anonymous" ++ ":true")%string] else [])
       ++ [])%list.
Proof.
  pose proof (encode_fields_omitempty_bool "is_anonymous" (IsAnonymous q) _ _
                (eq_refl : json.encode_fields json.FNil = inl [])) as H.
  apply (encode_fields_omitempty_bool "is_backend" (IsBackend q)) in H.
  apply (encode_fields_omitempty_string "user_role" (UserRole q)) in H.
  apply (encode_fields_omitempty_string "user_email" (UserEmail q)) in H.
  apply (encode_fields_omitempty_string "user_name" (UserName q)) in H.
  apply (encode_fields_omitempty_string "user_login" (UserLogin q)) in H.
  apply (encode_fields_always "org_id" (json.Int64 (OrgId q)) _ _ _ eq_refl) in H.
  apply (encode_fields_always "job" (json.String_ (Job q)) _ _ _ eq_refl) in H.
  exact H.
Qed.

(** The bytes [Marshal] writes for a query tag record. *)
Lemma encode_queryTagData (q : queryTagData) :
  json.encode (queryTagData_value q) =
  inl ("{" ++ json.appendString "job" ++ ":" ++ json.appendString (Job q)
       ++ "," ++ json.appendString "org_id" ++ ":" ++ json.FormatInt (OrgId q)
       ++ tag_member "user_login" (UserLogin q)
       ++ tag_member "user_name" (UserName q)
       ++ tag_member "user_email" (UserEmail q)
       ++ tag_member "user_role" (UserRole q)
       ++ tag_flag "is_backend" (IsBackend q)
       ++ tag_flag "is_anonymous" (IsAnonymous q)
       ++ "}").
Proof.
  unfold queryTagData_value. cbn [json.encode].
  rewrite (encode_fields_eq q). cbv beta iota. cbn [app].
  rewrite join_comma_cons. cbn [commas]. rewrite !commas_app.
  unfold tag_member, tag_flag.
  destruct (nonempty (UserLogin q)), (nonempty (UserName q)), (nonempty (UserEmail q)),
    (nonempty (UserRole q)), (IsBackend q), (IsAnonymous q);
    cbn [commas]; rewrite ?append_nil_r, ?append_nil_l, !append_assoc; reflexivity.
Qed.

Lemma queryTagFromContext_bytes (pc : backend.PluginContext) :
  let q := queryTagFromContext_qtd pc in
  fst (queryTagFromContext pc) =
  "{" ++ quoted "job" ++ ":" ++ quoted "Grafana"
  ++ "," ++ quoted "org_id" ++ ":" ++ json.FormatInt (backend.OrgID pc)
  ++ tag_member "user_login" (UserLogin q)
  ++ tag_member "user_name" (UserName q)
  ++ tag_member "user_email" (UserEmail q)
  ++ tag_member "user_role" (UserRole q)
  ++ tag_flag "is_backend" (IsBackend q)
  ++ tag_flag "is_anonymous" (IsAnonymous q)
  ++ "}".
Proof.
  intros q. unfold queryTagFromContext, json.Marshal. fold q.
  rewrite encode_queryTagData. cbn [fst].
  replace (Job q) with "Grafana" by (subst q; unfold queryTagFromContext_qtd;
                                     destruct (backend.User_ pc); reflexivity).
  replace (OrgId q) with (backend.OrgID pc)
    by (subst q; unfold queryTagFromContext_qtd; destruct (backend.User_ pc); reflexivity).
  reflexivity.
Qed.


(** ** The query tag is a JSON document *)

Lemma string_of_uint_digits (u : Decimal.uint) :
  all_bytes scanner.isDigit (NilEmpty.string_of_uint u) = true.
Proof. induction u; cbn [NilEmpty.string_of_uint all_bytes]; try rewrite IHu; reflexivity. Qed.

Lemma to_uint_head (p : positive) :
  exists (d : ascii) (ds : string),
    NilEmpty.string_of_uint (Pos.to_uint p) = String d ds
    /\ between "1" "9" d = true /\ all_bytes scanner.isDigit ds = true.
Proof.
  pose proof (DecimalZ.to_of (Z.to_int (Z.pos p))) as H.
  rewrite DecimalZ.of_to in H. cbn [Z.to_int Decimal.norm] in H.
  injection H as H.
  pose proof (DecimalPos.Unsigned.to_uint_nonnil p) as Hn.
  pose proof (DecimalPos.Unsigned.to_uint_nonzero p) as Hz.
  pose proof (string_of_uint_digits (Pos.to_uint p)) as Hd.
  destruct (Pos.to_uint p) as [|u|u|u|u|u|u|u|u|u|u];
    try (cbn [NilEmpty.string_of_uint all_bytes] in Hd |- *;
         apply andb_prop in Hd as [_ Hd]; eexists; eexists;
         split; [reflexivity | split; [reflexivity | exact Hd]]).
  - contradiction.
  - exfalso. unfold Decimal.unorm in H. cbn [Decimal.nzhead] in H.
    pose proof (DecimalFacts.nzhead_nonzero u) as Hh.
    destruct (Decimal.nzhead u) eqn:E; try discriminate H.
    + injection H as ->. now apply Hz.
    + exact (Hh _ eq_refl).
Qed.

Lemma step_first_digit (d : ascii) :
  between "1" "9" d = true ->
  scanner.step_fn (inMember scanner.stateBeginValue) d =
    (inMember scanner.state1, scanner.scanBeginLiteral)
  /\ scanner.step_fn (inMember scanner.stateNeg) d =
     (inMember scanner.state1, scanner.scanContinue).
Proof.
  destruct d as [[] [] [] [] [] [] [] []]; intros H;
    try (vm_compute in H; discriminate H); split; reflexivity.
Qed.

Lemma step_digit (c : ascii) :
  scanner.isDigit c = true ->
  scanner.step_fn (inMember scanner.state1) c = (inMember scanner.state1, scanner.scanContinue).
Proof.
  destruct c as [[] [] [] [] [] [] [] []]; intros H;
    try (vm_compute in H; discriminate H); reflexivity.
Qed.

Lemma scan_digits (ds rest : string) :
  all_bytes scanner.isDigit ds = true ->
  scanner.checkValid_from (ds ++ rest) (inMember scanner.state1) =
  scanner.checkValid_from rest (inMember scanner.state1).
Proof.
  induction ds as [|c ds IH]; [reflexivity|].
  cbn [all_bytes]. intros H. apply andb_prop in H as [Hc Hd].
  rewrite append_cons. cbn [scanner.checkValid_from].
  rewrite (step_digit c Hc). exact (IH Hd).
Qed.

Lemma scan_FormatInt (z : Z) :
  exists st, valueOver st
    /\ forall rest,
         scanner.checkValid_from (json.FormatInt z ++ rest)
           (inMember scanner.stateBeginValue) =
         scanner.checkValid_from rest (inMember st).
Proof.
  unfold json.FormatInt. destruct z as [|p|p].
  - exists scanner.state0. split; [left; reflexivity|]. reflexivity.
  - destruct (to_uint_head p) as (d & ds & E & Hd & Hds).
    exists scanner.state1. split; [right; left; reflexivity|]. intros rest.
    cbn [Z.to_int NilZero.string_of_int]. unfold NilZero.string_of_uint.
    pose proof (DecimalPos.Unsigned.to_uint_nonnil p) as Hn.
    replace (match Pos.to_uint p with Decimal.Nil => "0" | _ => NilEmpty.string_of_uint (Pos.to_uint p) end)
      with (NilEmpty.string_of_uint (Pos.to_uint p))
      by (destruct (Pos.to_uint p); [contradiction | reflexivity ..]).
    rewrite E, append_cons. cbn [scanner.checkValid_from].
    rewrite (proj1 (step_first_digit d Hd)). apply scan_digits, Hds.
  - destruct (to_uint_head p) as (d & ds & E & Hd & Hds).
    exists scanner.state1. split; [right; left; reflexivity|]. intros rest.
    cbn [Z.to_int NilZero.string_of_int]. unfold NilZero.string_of_uint.
    pose proof (DecimalPos.Unsigned.to_uint_nonnil p) as Hn.
    replace (match Pos.to_uint p with Decimal.Nil => "0" | _ => NilEmpty.string_of_uint (Pos.to_uint p) end)
      with (NilEmpty.string_of_uint (Pos.to_uint p))
      by (destruct (Pos.to_uint p); [contradiction | reflexivity ..]).
    rewrite E, !append_cons.
    change (scanner.checkValid_from (String "-" (String d ?x)) (inMember scanner.stateBeginValue))
      with (let '(s', op) := scanner.step_fn (inMember scanner.stateNeg) d in
            match op with
            | scanner.scanError => scanner.err s'
            | _ => scanner.checkValid_from x s'
            end).
    rewrite (proj2 (step_first_digit d Hd)). apply scan_digits, Hds.
Qed.

Lemma scan_member (name value : string) (st : scanner.step_state) :
  valueOver st ->
  json.appendString name = quoted name ->
  all_bytes ascii7 name = true -> all_bytes ascii7 value = true ->
  exists st', valueOver st'
    /\ forall rest,
         scanner.checkValid_from (tag_member name value ++ rest) (inMember st) =
         scanner.checkValid_from rest (inMember st').
Proof.
  intros Hst Hq Hn Hv. unfold tag_member. destruct (nonempty value).
  - exists scanner.stateEndValue. split; [right; right; reflexivity|]. intros rest.
    rewrite <- Hq. unfold json.appendString, quoted, str1.
    repeat (rewrite append_cons || rewrite append_nil_l || rewrite append_assoc).
    assert (forall x, scanner.checkValid_from (String "," (String dquote x)) (inMember st) =
                      scanner.checkValid_from x (inString false [scanner.parseObjectKey] None))
      as -> by (intros x; destruct Hst as [-> | [-> | ->]]; reflexivity).
    rewrite (proj2 (scan_string_body name _ _ _ _ Hn)).
    change (scanner.checkValid_from
              (String dquote (String ":" (String dquote ?x)))
              (inString false [scanner.parseObjectKey] None))
      with (scanner.checkValid_from x (inString false [scanner.parseObjectValue] None)).
    rewrite (proj2 (scan_string_body value _ _ _ _ Hv)).
    reflexivity.
  - exists st. split; [exact Hst|]. reflexivity.
Qed.

Lemma scan_flag (name : string) (flag : bool) (st : scanner.step_state) :
  valueOver st ->
  json.appendString name = quoted name ->
  all_bytes ascii7 name = true ->
  exists st', valueOver st'
    /\ forall rest,
         scanner.checkValid_from (tag_flag name flag ++ rest) (inMember st) =
         scanner.checkValid_from rest (inMember st').
Proof.
  intros Hst Hq Hn. unfold tag_flag. destruct flag.
  - exists scanner.stateEndValue. split; [right; right; reflexivity|]. intros rest.
    rewrite <- Hq. unfold json.appendString, quoted, str1.
    repeat (rewrite append_cons || rewrite append_nil_l || rewrite append_assoc).
    assert (forall x, scanner.checkValid_from (String "," (String dquote x)) (inMember st) =
                      scanner.checkValid_from x (inString false [scanner.parseObjectKey] None))
      as -> by (intros x; destruct Hst as [-> | [-> | ->]]; reflexivity).
    rewrite (proj2 (scan_string_body name _ _ _ _ Hn)).
    reflexivity.
  - exists st. split; [exact Hst|]. reflexivity.
Qed.

Lemma scan_close (st : scanner.step_state) :
  valueOver st -> scanner.checkValid_from "}" (inMember st) = None.
Proof. intros [-> | [-> | ->]]; reflexivity. Qed.

(** X9: for a context without a user, or with a user whose login, name,
    email and role hold bytes below 0x80 only, the query tag is a
    well-formed JSON document: the scanner that guards [json.Unmarshal]
    accepts it, whatever the organization is. *)
Theorem query_tag_is_json (pc : backend.PluginContext) :
  ascii_user (backend.User_ pc) = true ->
  scanner.checkValid (fst (queryTagFromContext pc)) = None.
Proof.
  intros Hu. rewrite queryTagFromContext_bytes. unfold scanner.checkValid.
  change (scanner.checkValid_from
            ("{" ++ quoted "job" ++ ":" ++ quoted "Grafana" ++ "," ++ quoted "org_id"
                 ++ ":" ++ ?x) scanner.reset)
    with (scanner.checkValid_from x (inMember scanner.stateBeginValue)).
  destruct (scan_FormatInt (backend.OrgID pc)) as (s0 & H0 & ->).
  set (q := queryTagFromContext_qtd pc).
  assert (all_bytes ascii7 (UserLogin q) = true /\ all_bytes ascii7 (UserName q) = true
          /\ all_bytes ascii7 (UserEmail q) = true /\ all_bytes ascii7 (UserRole q) = true)
    as (Hl & Hn & He & Hr).
  { subst q. unfold queryTagFromContext_qtd.
    destruct (backend.User_ pc) as [u|]; [|repeat split; reflexivity].
    cbn [ascii_user] in Hu.
    apply andb_prop in Hu as [Hu Hr]. apply andb_prop in Hu as [Hu He].
    apply andb_prop in Hu as [Hl Hn]. repeat split; assumption. }
  destruct (scan_member "user_login" (UserLogin q) s0 H0 eq_refl eq_refl Hl)
    as (s1 & H1 & E1).
  destruct (scan_member "user_name" (UserName q) s1 H1 eq_refl eq_refl Hn)
    as (s2 & H2 & E2).
  destruct (scan_member "user_email" (UserEmail q) s2 H2 eq_refl eq_refl He)
    as (s3 & H3 & E3).
  destruct (scan_member "user_role" (UserRole q) s3 H3 eq_refl eq_refl Hr)
    as (s4 & H4 & E4).
  destruct (scan_flag "is_backend" (IsBackend q) s4 H4 eq_refl eq_refl)
    as (s5 & H5 & E5).
  destruct (scan_flag "is_anonymous" (IsAnonymous q) s5 H5 eq_refl eq_refl)
    as (s6 & H6 & E6).
  rewrite E1, E2, E3, E4, E5, E6. apply scan_close, H6.
Qed.

Lemma query_tag_is_json_witness :
  scanner.checkValid
    (fst (queryTagFromContext
            (test_context (Some {| backend.Login := "auserlogin";
                                   backend.Name := "Firstname <Lastname>";
                                   backend.Email := "someone@example.com";
                                   backend.Role := "" |})))) = None.
Proof. apply query_tag_is_json. reflexivity. Defined.

(** ** The parameters, read back *)

Lemma append_same_prefix (p a b : string) : p ++ a = p ++ b -> a = b.
Proof.
  induction p as [|x p IH]; [trivial|].
  rewrite !append_cons. intros H. injection H as H. exact (IH H).
Qed.

Lemma QueryEscape_no_amp (s : string) : occurs "&" (url.QueryEscape s) = false.
Proof. apply occurs_count, QueryEscape_separators. Qed.

(** Two encoded values followed by [&] are equal only if the values are. *)
Lemma value_piece (a b ra rb : string) :
  url.QueryEscape a ++ String "&" ra = url.QueryEscape b ++ String "&" rb ->
  a = b /\ ra = rb.
Proof.
  intros H. apply split_at_first in H as [H ->]; try apply QueryEscape_no_amp.
  split; [|reflexivity]. exact (escape_injective _ _ _ H).
Qed.

(** X10: the parameters [getConnectionString] collects are exactly
    [database], [role], [schema] and [warehouse], with [QUERY_TAG] when the
    query tag is not empty and with [authenticator] and [privateKey] when
    the private key is not empty, written in this order; without a private
    key neither [authenticator] nor [privateKey] is among them. *)
Theorem connection_params_keys
    (config : pluginConfig) (password privateKey queryTag : string) :
  let params := fst (getConnectionString_locals config password privateKey queryTag) in
  url.sortedKeys params =
    ((if nonempty queryTag then ["QUERY_TAG"] else [])
     ++ (if nonempty privateKey then ["authenticator"] else [])
     ++ ["database"]
     ++ (if nonempty privateKey then ["privateKey"] else [])
     ++ ["role"; "schema"; "warehouse"])%list
  /\ (privateKey = "" ->
      params !! "authenticator" = None /\ params !! "privateKey" = None).
Proof.
  intros params. split; [apply locals_sortedKeys|].
  intros ->.
  destruct (locals_lookup config password "" queryTag) as (_ & _ & _ & _ & _ & Ha & Hp).
  split; assumption.
Qed.

Lemma connection_params_keys_witness :
  url.sortedKeys (fst (getConnectionString_locals test_config "password" "" "mytag")) =
    ["QUERY_TAG"; "database"; "role"; "schema"; "warehouse"]
  /\ fst (getConnectionString_locals test_config "password" "" "mytag") !! "authenticator"
     = None.
Proof.
  destruct (connection_params_keys test_config "password" "" "mytag") as [Hk Hn].
  split; [exact Hk|]. exact (proj1 (Hn eq_refl)).
Defined.

Lemma params_tail (r1 s1 w1 r2 s2 w2 : string) :
  "role=" ++ url.QueryEscape r1 ++ "&schema=" ++ url.QueryEscape s1
    ++ "&warehouse=" ++ url.QueryEscape w1 =
  "role=" ++ url.QueryEscape r2 ++ "&schema=" ++ url.QueryEscape s2
    ++ "&warehouse=" ++ url.QueryEscape w2 ->
  r1 = r2 /\ s1 = s2 /\ w1 = w2.
Proof.
  intros H. apply append_same_prefix in H.
  change ("&schema=" ++ ?x) with (String "&" ("schema=" ++ x)) in H.
  apply value_piece in H as [-> H]. apply append_same_prefix in H.
  change ("&warehouse=" ++ ?x) with (String "&" ("warehouse=" ++ x)) in H.
  apply value_piece in H as [-> H]. apply append_same_prefix in H.
  apply escape_injective in H. auto.
Qed.

(** X11: the encoded parameters determine what went into them: two calls
    whose parameters encode alike were given the same role, warehouse,
    database, schema, query tag and private key. *)
Theorem encoded_params_determine_values
    (c1 c2 : pluginConfig) (p1 p2 k1 k2 t1 t2 : string) :
  url.Encode (fst (getConnectionString_locals c1 p1 k1 t1)) =
  url.Encode (fst (getConnectionString_locals c2 p2 k2 t2)) ->
  Role c1 = Role c2 /\ Warehouse c1 = Warehouse c2 /\ Database c1 = Database c2
  /\ Schema c1 = Schema c2 /\ t1 = t2 /\ k1 = k2.
Proof.
  rewrite !locals_Encode. unfold encodedParams. intros E.
  assert (Htag : t1 = t2 /\
            (if nonempty k1 then "authenticator=SNOWFLAKE_JWT&" else "")
            ++ "database=" ++ url.QueryEscape (Database c1) ++ "&"
            ++ (if nonempty k1 then "privateKey=" ++ url.QueryEscape k1 ++ "&" else "")
            ++ "role=" ++ url.QueryEscape (Role c1)
            ++ "&schema=" ++ url.QueryEscape (Schema c1)
            ++ "&warehouse=" ++ url.QueryEscape (Warehouse c1)
            = (if nonempty k2 then "authenticator=SNOWFLAKE_JWT&" else "")
            ++ "database=" ++ url.QueryEscape (Database c2) ++ "&"
            ++ (if nonempty k2 then "privateKey=" ++ url.QueryEscape k2 ++ "&" else "")
            ++ "role=" ++ url.QueryEscape (Role c2)
            ++ "&schema=" ++ url.QueryEscape (Schema c2)
            ++ "&warehouse=" ++ url.QueryEscape (Warehouse c2)).
  { destruct (nonempty t1) eqn:T1, (nonempty t2) eqn:T2.
    - rewrite !append_assoc in E. apply append_same_prefix in E.
      apply value_piece in E as [-> E]. split; [reflexivity | exact E].
    - exfalso. destruct (nonempty k2); discriminate E.
    - exfalso. destruct (nonempty k1); discriminate E.
    - apply nonempty_false in T1, T2. subst. split; [reflexivity | exact E]. }
  destruct Htag as [-> E']. clear E.
  destruct (nonempty k1) eqn:K1, (nonempty k2) eqn:K2.
  - rewrite !append_assoc in E'.
    apply (append_same_prefix "authenticator=SNOWFLAKE_JWT&") in E'.
    apply append_same_prefix in E'.
    change ("&" ++ ?x) with (String "&" x) in E'.
    apply value_piece in E' as [Hd E']. apply append_same_prefix in E'.
    apply value_piece in E' as [-> E'].
    apply params_tail in E' as (Hr & Hs & Hw).
    split; [exact Hr|]. split; [exact Hw|]. split; [exact Hd|].
    split; [exact Hs|]. split; reflexivity.
  - discriminate E'.
  - discriminate E'.
  - rewrite !append_nil_l in E'. apply append_same_prefix in E'.
    change ("&" ++ ?x) with (String "&" x) in E'.
    apply value_piece in E' as [Hd E'].
    apply params_tail in E' as (Hr & Hs & Hw).
    apply nonempty_false in K1, K2. subst k1 k2.
    split; [exact Hr|]. split; [exact Hw|]. split; [exact Hd|].
    split; [exact Hs|]. split; reflexivity.
Qed.

Lemma encoded_params_determine_values_witness :
  Role test_config = Role (with_ExtraConfig test_config "other=1")
  /\ Warehouse test_config = Warehouse (with_ExtraConfig test_config "other=1").
Proof.
  assert (E : url.Encode (fst (getConnectionString_locals test_config "a" "" "tag")) =
              url.Encode (fst (getConnectionString_locals
                                 (with_ExtraConfig test_config "other=1") "b" "" "tag")))
    by reflexivity.
  destruct (encoded_params_determine_values _ _ _ _ _ _ _ _ E) as (Hr & Hw & _).
  split; assumption.
Defined.

Lemma step_skipped_value_end (ty : decode.structType) (d : decode.state) (b : string) :
  decode.step ty
    (decode.step ty (decode.goto d (decode.InValueLiteral None (str1 dquote ++ b)))
       dquote scanner.scanContinue)
    "}" scanner.scanEndObject =
  decode.goto d decode.Done.
Proof. reflexivity. Qed.

(** X12: a document of one member whose key names no field of the
    configuration, the key and its string value written by a JSON encoder
    from bytes below 0x80, decodes without error to the zero
    configuration: the member is skipped. *)
Theorem getConfig_skips_unknown_member
    (settings : backend.DataSourceInstanceSettings) (key value : string) :
  backend.JSONData settings = one_member key value ->
  all_bytes ascii7 key = true -> all_bytes ascii7 value = true ->
  decode.findField (decode.fieldNames pluginConfig_type) key = None ->
  getConfig settings = (pluginConfig_zero, None).
Proof.
  intros Hd Hk Hv Hf. rewrite getConfig_Unmarshal, Hd.
  unfold Unmarshal_pluginConfig, decode.Unmarshal.
  rewrite (one_member_valid key value Hk Hv), (one_member_ops key value Hk Hv).
  set (d0 := {| decode.at_ := decode.AtTop;
                decode.values := pluginConfig_fields pluginConfig_zero;
                decode.savedError := None |}).
  change (decode.run pluginConfig_type d0
            (("{"%char, scanner.scanBeginObject) :: (dquote, scanner.scanBeginLiteral) :: ?l))
    with (decode.run pluginConfig_type (decode.goto d0 (decode.InKey (str1 dquote))) l).
  rewrite run_key.
  change (decode.run pluginConfig_type
            (decode.goto d0 (decode.InKey (str1 dquote ++ json.string_body key 0 true)))
            ((dquote, scanner.scanContinue) :: (":"%char, scanner.scanObjectKey)
             :: (dquote, scanner.scanBeginLiteral) :: ?l))
    with (decode.run pluginConfig_type
            (decode.goto d0
               (decode.InValueLiteral
                  match decode.unquoteBytes (quoted (json.string_body key 0 true)) with
                  | Some k => decode.findField (decode.fieldNames pluginConfig_type) k
                  | None => None
                  end
                  (str1 dquote)))
            l).
  rewrite unquoteBytes_quoted, (unquote_string_body key Hk), Hf, run_value.
  cbn [decode.run]. rewrite step_skipped_value_end. reflexivity.
Qed.

Lemma getConfig_skips_unknown_member_witness :
  getConfig (test_settings (one_member "accounts" "test")) = (pluginConfig_zero, None).
Proof.
  apply (getConfig_skips_unknown_member _ "accounts" "test"); reflexivity.
Defined.

Lemma all_bytes_append (p : ascii -> bool) (a b : string) :
  all_bytes p (a ++ b) = all_bytes p a && all_bytes p b.
Proof.
  induction a as [|x a IH]; [reflexivity|].
  rewrite append_cons. cbn [all_bytes]. now rewrite IH, andb_assoc.
Qed.

Lemma QueryEscape_byte_form (c : ascii) :
  all_bytes form_byte (url.escape_byte url.encodeQueryComponent c) = true.
Proof. destruct c as [[] [] [] [] [] [] [] []]; vm_compute; reflexivity. Qed.

Lemma QueryEscape_form (s : string) : all_bytes form_byte (url.QueryEscape s) = true.
Proof.
  unfold url.QueryEscape. induction s as [|x s IH]; [reflexivity|].
  now rewrite escape_cons, all_bytes_append, QueryEscape_byte_form, IH.
Qed.

(** X13: the encoded parameters of every descriptor are made of letters,
    digits, [-], [_], [.], [~], [%], [+], [=] and [&] only, whatever bytes
    the configuration, the query tag and the private key hold: no space,
    control byte, quotation mark or byte above 0x7F reaches them. *)
Theorem encoded_params_alphabet
    (config : pluginConfig) (password privateKey queryTag : string) :
  all_bytes form_byte
    (url.Encode (fst (getConnectionString_locals config password privateKey queryTag)))
  = true.
Proof.
  rewrite locals_Encode. unfold encodedParams.
  destruct (nonempty queryTag), (nonempty privateKey);
    rewrite !all_bytes_append, !QueryEscape_form; reflexivity.
Qed.
